(** * A shallow embedding of [ip.py]

    [ip.py] is a linear script: it reads its storage configuration from the
    environment, fetches five years of price history and the latest revenue
    for two fixed groups of bank tickers, builds four plotly figures per
    group, glues their markup into one HTML page and uploads that page to
    S3, writing it to a local file when the upload fails.

    The script is modelled as state-passing code over a [World]: whatever
    lies outside the process (the market data service, S3, the operating
    system, the source of random identifiers) is an abstract state consulted
    through oracles, and whatever the script does to it is appended to a
    trace of events. *)

From Stdlib Require Import String Ascii List ZArith Lia Floats.
From stdpp Require Import base option list gmap strings sorting pretty.

Open Scope string_scope.
Open Scope list_scope.

(** ** Python values *)

(** Text is held as its UTF-8 code units, so [str.encode('utf-8')] is the
    passage from a string to its bytes. *)
Definition encode_utf8 (s : string) : list Byte.byte := list_byte_of_string s.

(** The double quote, for the one HTML attribute the script writes. *)
Definition dquote : string := String "034"%char EmptyString.

(** An instance of [Exception]; [str(e)] is its message. *)
Inductive exn : Type :=
| Exception (msg : string).

Definition str_exn (e : exn) : string :=
  match e with Exception msg => msg end.

(** A day of a [Date] index. *)
Definition Date : Type := Z.

(** The frame returned by [Ticker.history]: one row per trading day. Only the
    [Date] index and the [Close] column are ever read by the script. A number
    cell of a pandas object is a float64, written [float] below, and [nan] is
    the missing value. *)
Record Row : Type := { date : Date; close : float }.
Definition History : Type := list Row.

(** [DataFrame.empty] *)
Definition hist_empty (h : History) : bool :=
  match h with [] => true | _ :: _ => false end.

(** The frame behind [Ticker.financials]: a row label and the values of that
    row, one per reporting period. A label may label several rows. *)
Definition Financials : Type := list (string * list float).

(** The rows of [fin] labelled [label], in the order of the frame. *)
Definition rows_labelled (fin : Financials) (label : string) : list (list float) :=
  map snd (List.filter (λ r, String.eqb (fst r) label) fin).

(** What [revenue] may hold besides [None]: one cell, or a row of cells. *)
Inductive value : Type :=
| Cell (x : float)
| Series (xs : list float).

(** Lines 41-42: the value left in [revenue] once the inner [try] body ran to
    its end. With no row of the label the [in] test fails. With one such row
    [fin.loc[label]] is that row, [.empty] when the frame has no column, and
    [.iloc[0]] its first cell. With several, [fin.loc[label]] is the frame of
    these rows, [.empty] when it has no column, and [.iloc[0]] its first
    row. *)
Definition total_revenue (fin : Financials) : option value :=
  match rows_labelled fin "Total Revenue" with
  | [] => None
  | [row] => match row with [] => None | v :: _ => Some (Cell v) end
  | row :: _ :: _ => match row with [] => None | _ :: _ => Some (Series row) end
  end.

(** The value stored per ticker (line 46). *)
Record SymbolRecord : Type := { history : History; revenue : option value }.

(** ** Dictionaries

    A Python [dict] keeps its keys in insertion order, and the order is
    observable here (it is the column order of the price table and the bar
    order of the revenue chart), so a dictionary is an association list with
    at most one entry per key. *)
Definition dict (V : Type) : Type := list (string * V).

Fixpoint dict_set {V} (d : dict V) (k : string) (v : V) : dict V :=
  match d with
  | [] => [(k, v)]
  | (k', v') :: d' =>
      if String.eqb k' k then (k, v) :: d' else (k', v') :: dict_set d' k v
  end.

Fixpoint dict_get {V} (d : dict V) (k : string) : option V :=
  match d with
  | [] => None
  | (k', v') :: d' => if String.eqb k' k then Some v' else dict_get d' k
  end.

Definition keys {V} (d : dict V) : list string := map fst d.
Definition values {V} (d : dict V) : list V := map snd d.

(** Truth value of a dictionary: [if data_us:]. *)
Definition truthy {V} (d : dict V) : bool :=
  match d with [] => false | _ :: _ => true end.

(** ** Events *)

(** What the process does that can be seen from outside, together with two
    ghost events marking the entry of the report builder and the publisher. *)
Inductive Event : Type :=
| EvPrint (line : string)
| EvHistory (ticker period : string) (result : exn + History)
| EvFinancials (ticker : string) (result : exn + Financials)
| EvUuid (id : string)
| EvUpload (bucket : option string) (key : string) (body : list Byte.byte)
           (content_type : string) (result : option exn)
| EvOpen (path : string) (result : option exn)
| EvWrite (path : string) (body : list Byte.byte) (result : option exn)
| EvBuild (group_name : string)
| EvPublish (group_name : string).

(** ** Configuration (lines 11-21) *)

Record Config : Type := {
  AWS_BUCKET_NAME : option string;
  AWS_DEFAULT_REGION : string;
  AWS_ACCESS_KEY_ID : option string;
  AWS_SECRET_ACCESS_KEY : option string
}.

(** [load_dotenv()]: variables of the [.env] file are added to the process
    environment, those already set keep their value. *)
Definition load_dotenv (environ dotenv : gmap string string) : gmap string string :=
  environ ∪ dotenv.

Definition getenv (env : gmap string string) (k : string) : option string :=
  env !! k.

Definition getenv_default (env : gmap string string) (k dflt : string) : string :=
  default dflt (env !! k).

Definition read_config (env : gmap string string) : Config :=
  {| AWS_BUCKET_NAME := getenv env "AWS_BUCKET_NAME";
     AWS_DEFAULT_REGION := getenv_default env "AWS_DEFAULT_REGION" "us-east-1";
     AWS_ACCESS_KEY_ID := getenv env "AWS_ACCESS_KEY_ID";
     AWS_SECRET_ACCESS_KEY := getenv env "AWS_SECRET_ACCESS_KEY" |}.

(** Truth value of what [os.getenv] returned: [None] and the empty string are
    false. *)
Definition truthy_env (v : option string) : bool :=
  match v with
  | None => false
  | Some s => negb (String.eqb s EmptyString)
  end.

(** [all([AWS_ACCESS_KEY_ID, AWS_SECRET_ACCESS_KEY])] *)
Definition credentials_present (c : Config) : bool :=
  forallb truthy_env [AWS_ACCESS_KEY_ID c; AWS_SECRET_ACCESS_KEY c].

(** Lines 23-26; a group that is not configured has no tickers. *)
Definition TICKER_GROUPS : dict (list string) :=
  [ ("US Banks", ["JPM"; "BAC"; "C"; "WFC"; "GS"]);
    ("US Banks in India", ["JPM"; "WFC"; "C"; "BAC"]) ].

Definition tickers_of (group_name : string) : list string :=
  default [] (dict_get TICKER_GROUPS group_name).

(** ** pandas

    The operations of lines 52-55 and 75, after the pandas documentation.
    [pct_change] is float64 arithmetic. [mean] and [sort_values] are left to
    the installed libraries (see [Externals]): the order in which numpy adds
    up a column, and the order it gives to equal values, are its own. *)

(** A column of a frame, or a series: a name and its cells. *)
Definition Column : Type := (string * list float)%type.

(** A frame indexed by date, such as [closing_prices]. *)
Record Table : Type := { index : list Date; columns : list Column }.

(** [d['history']['Close']]: the index and the cells of the close column. *)
Definition close_index (h : History) : list Date := map date h.
Definition close_values (h : History) : list float := map close h.

(** The cell of [h] at date [d], [nan] when [h] has no such row. *)
Fixpoint close_at (h : History) (d : Date) : float :=
  match h with
  | [] => nan
  | r :: h' => if Z.eqb (date r) d then close r else close_at h' d
  end.

Definition same_index (i j : list Date) : bool :=
  bool_decide (i = j).

(** [pd.concat(series, axis=1)] on a non-empty list: when every series has
    the index of the first, that index is kept and the cells are taken as
    they are; otherwise the index is the sorted union of the indexes and each
    series is reindexed on it, a missing date giving [nan] (a history has at
    most one row per date). The columns are then given the names
    [data.keys()] (line 53). *)
Definition concat_close (data : dict SymbolRecord) : Table :=
  let indexes := map (fun d => close_index (history d)) (values data) in
  match indexes with
  | [] => {| index := []; columns := [] |}
  | i0 :: _ =>
      if forallb (same_index i0) indexes then
        {| index := i0;
           columns := map (fun kv => (fst kv, close_values (history (snd kv)))) data |}
      else
        let idx := merge_sort Z.le (remove_dups (concat indexes)) in
        {| index := idx;
           columns := map (fun kv => (fst kv, map (close_at (history (snd kv))) idx)) data |}
  end.

(** A row of the long form of line 55: [Date], [Ticker], [Close]. *)
Record LongRow : Type := { lr_date : Date; lr_ticker : string; lr_close : float }.

(** [melt(id_vars='Date', var_name='Ticker', value_name='Close')] on a frame
    it accepts: the columns one after the other, each against the whole
    index. *)
Definition melt (t : Table) : list LongRow :=
  flat_map
    (fun c => zip_with (fun d v => {| lr_date := d; lr_ticker := fst c; lr_close := v |})
                       (index t) (snd c))
    (columns t).

(** Line 55, [closing_prices.reset_index().melt(...)]. [reset_index] makes a
    column of the index, which is named Date, and raises when the frame has a
    column of that name already. [melt] then names its value column Close;
    from pandas 2.0 on it raises when the frame has a column of that name,
    before that it only warns. [strict] tells which pandas is installed. *)
Definition reset_index_melt (strict : bool) (t : Table) : exn + list LongRow :=
  if bool_decide ("Date" ∈ map fst (columns t)) then
    inl (Exception "cannot insert Date, already exists")
  else if strict && bool_decide ("Close" ∈ map fst (columns t)) then
    inl (Exception
           "value_name (Close) cannot match an element in the DataFrame columns.")
  else inr (melt t).

(** Forward fill, the [pad] of [pct_change]. *)
Fixpoint ffill_from (last : float) (xs : list float) : list float :=
  match xs with
  | [] => []
  | x :: xs' =>
      if PrimFloat.is_nan x then last :: ffill_from last xs'
      else x :: ffill_from x xs'
  end.

Definition ffill (xs : list float) : list float := ffill_from nan xs.

(** [cur / prev - 1] in float64. *)
Definition pct (prev cur : float) : float := (cur / prev - 1)%float.

(** [Series.pct_change()]: the first cell has no predecessor and is [nan].
    [pad] tells whether gaps are filled forward first, which is the default
    of pandas before 3.0 and not of pandas from 3.0 on. *)
Definition pct_change (pad : bool) (xs : list float) : list float :=
  let ys := if pad then ffill xs else xs in
  match ys with
  | [] => []
  | _ :: tl => nan :: zip_with pct ys tl
  end.

(** Line 75: [closing_prices.pct_change().mean().sort_values()], given the
    [mean] of a column and the [sort] of a series. *)
Definition average_returns (pad : bool) (mean : list float → float)
    (sort : list (string * float) → list (string * float)) (t : Table)
    : list (string * float) :=
  sort (map (fun c => (fst c, mean (pct_change pad (snd c)))) (columns t)).

(** ** plotly figures *)

Inductive Trace : Type :=
| Scatter (name : string) (x : list Date) (y : list float)
| Box (name : string) (x : list string) (y : list float)
| Bar (x : list string) (y : list float).

Record Annotation : Type := {
  text : string; xref : string; yref : string;
  x_pos : float; y_pos : float; showarrow : bool
}.

Record Figure : Type := {
  fig_data : list Trace;
  fig_title : string;
  fig_title_font_size : option Z;
  fig_template : string;
  fig_labels : list (string * string);
  fig_annotations : list Annotation
}.

(** [px.line(closing_prices, title=...)] followed by the [update_layout] of
    line 58: one line per column, against the index. *)
Definition px_line (t : Table) (title : string) : Figure :=
  {| fig_data := map (fun c => Scatter (fst c) (index t) (snd c)) (columns t);
     fig_title := title;
     fig_title_font_size := Some 20%Z;
     fig_template := "plotly_white";
     fig_labels := [];
     fig_annotations := [] |}.

(** The values of a column, each once, in order of first appearance. *)
Fixpoint uniques (xs : list string) : list string :=
  match xs with
  | [] => []
  | x :: xs' => x :: filter (λ y, y ≠ x) (uniques xs')
  end.

(** [px.box(melted_prices, x='Ticker', y='Close', color='Ticker', ...)]: one
    box per value of the colour column, in order of first appearance. *)
Definition px_box (rows : list LongRow) (title : string) : Figure :=
  {| fig_data :=
       map (fun k =>
              let mine := filter (fun r => lr_ticker r = k) rows in
              Box k (map lr_ticker mine) (map lr_close mine))
           (uniques (map lr_ticker rows));
     fig_title := title;
     fig_title_font_size := None;
     fig_template := "plotly_white";
     fig_labels := [];
     fig_annotations := [] |}.

(** [px.bar(x=..., y=..., labels=..., title=..., template=...)] on a list of
    names and a list of numbers: one series of bars. *)
Definition px_bar (x : list string) (y : list float) (labels : list (string * string))
    (title : string) : Figure :=
  {| fig_data := [Bar x y];
     fig_title := title;
     fig_title_font_size := None;
     fig_template := "plotly_white";
     fig_labels := labels;
     fig_annotations := [] |}.

(** Lines 69-73: an empty figure with one annotation. *)
Definition no_revenue_figure : Figure :=
  {| fig_data := [];
     fig_title := "💰 Latest Reported Revenue";
     fig_title_font_size := None;
     fig_template := "plotly_white";
     fig_labels := [];
     fig_annotations :=
       [ {| text := "No Revenue Data Available";
            xref := "paper"; yref := "paper";
            x_pos := 0.5%float; y_pos := 0.5%float;
            showarrow := false |} ] |}.

(** Line 63: the entries of [data] whose revenue is not [None]. *)
Fixpoint revenues (data : dict SymbolRecord) : dict value :=
  match data with
  | [] => []
  | (k, v) :: data' =>
      match revenue v with
      | Some r => (k, r) :: revenues data'
      | None => revenues data'
      end
  end.

(** The numbers of a list of values, when each is a single cell. *)
Fixpoint cells (vs : list value) : option (list float) :=
  match vs with
  | [] => Some []
  | Cell x :: vs' => option_map (cons x) (cells vs')
  | Series _ :: _ => None
  end.

(** Lines 63-73. When a revenue is a row instead of a number, plotly does
    not take [y] for one column of numbers; what it makes of it, a figure or
    an exception, is [bar_of_rows]. *)
Definition revenue_figure (bar_of_rows : list string → list value → exn + Figure)
    (data : dict SymbolRecord) : exn + Figure :=
  let revenues := revenues data in
  if truthy revenues then
    match cells (values revenues) with
    | Some y =>
        inr (px_bar (keys revenues) y
                    [("x", "Ticker"); ("y", "Revenue")] "💰 Latest Reported Revenue")
    | None => bar_of_rows (keys revenues) (values revenues)
    end
  else inr no_revenue_figure.

(** Lines 76-78, given the series [returns] of line 75. *)
Definition returns_figure (returns : list (string * float)) : Figure :=
  px_bar (map fst returns) (map snd returns)
         [("x", "Ticker"); ("y", "Avg Daily Return")] "📉 Average Daily Returns".

(** *** Reading a chart back *)

(** The name of a line or of a box, nothing for a bar series. *)
Definition trace_name (tr : Trace) : option string :=
  match tr with
  | Scatter name _ _ | Box name _ _ => Some name
  | Bar _ _ => None
  end.



(** ** The page (lines 83-102) *)

Definition nl : string := String "010"%char EmptyString.

Definition styles : string :=
  nl +:+
  "    <style>" +:+ nl +:+
  "        body { font-family: Arial, sans-serif; background: #f4f6f8; padding: 20px; }" +:+ nl +:+
  "        h1 { text-align: center; color: #003366; }" +:+ nl +:+
  "        .chart-container { margin-bottom: 50px; border: 1px solid #ccc; background: white; padding: 15px; border-radius: 10px; box-shadow: 0 2px 5px rgba(0,0,0,0.1); }" +:+ nl +:+
  "    </style>" +:+ nl +:+
  "    ".

(** The text of the heading, line 98. *)
Definition heading (group_name time_period : string) : string :=
  group_name +:+ " Interactive Financial Dashboard (" +:+ time_period +:+ ")".

(** The text of the title, line 94. *)
Definition page_title (group_name time_period : string) : string :=
  group_name +:+ " Analysis (" +:+ time_period +:+ ")".

(** The f-string of lines 91-102. *)
Definition full_html (group_name time_period combined_html : string) : string :=
  nl +:+
  "    <html>" +:+ nl +:+
  "    <head>" +:+ nl +:+
  "        <title>" +:+ group_name +:+ " Analysis (" +:+ time_period +:+ ")</title>" +:+ nl +:+
  "        " +:+ styles +:+ nl +:+
  "    </head>" +:+ nl +:+
  "    <body>" +:+ nl +:+
  "        <h1>" +:+ group_name +:+ " Interactive Financial Dashboard (" +:+ time_period +:+ ")</h1>" +:+ nl +:+
  "        " +:+ combined_html +:+ nl +:+
  "    </body>" +:+ nl +:+
  "    </html>" +:+ nl +:+
  "    ".

(** One element of the list comprehension of line 90, given the markup of
    the figure. *)
Definition chart_container (markup : string) : string :=
  "<div class=" +:+ dquote +:+ "chart-container" +:+ dquote +:+ ">" +:+ markup +:+ "</div>".

(** Line 105. *)
Definition dashboard_filename (group_name time_period : string) : string :=
  group_name +:+ "_interactive_dashboard_" +:+ time_period +:+ ".html".

(** [f"{AWS_BUCKET_NAME}"] *)
Definition fmt_option (v : option string) : string :=
  match v with Some s => s | None => "None" end.

(** ** The state monad of the script *)

(** How a piece of the script ends: with a value, with an [Exception] on its
    way up, or with [SystemExit], which no [except Exception] catches. *)
Inductive Outcome (A : Type) : Type :=
| Ret (a : A)
| Raise (e : exn)
| Exit (status : Z).
Arguments Ret {A} a.
Arguments Raise {A} e.
Arguments Exit {A} status.

(** The process and what surrounds it: the state [outside] (market data
    service, S3, operating system, source of random identifiers), the local
    files the process wrote, and the events so far, oldest first. *)
Record World (Outside : Type) : Type := {
  outside : Outside;
  files : gmap string (list Byte.byte);
  trace : list Event
}.
Arguments outside {Outside} w.
Arguments files {Outside} w.
Arguments trace {Outside} w.

Definition M (Outside A : Type) : Type := World Outside -> Outcome A * World Outside.

#[global] Instance M_ret {Outside} : MRet (M Outside) := λ A a w, (Ret a, w).

#[global] Instance M_bind {Outside} : MBind (M Outside) := λ A B k m w,
  match m w with
  | (Ret a, w') => k a w'
  | (Raise e, w') => (Raise e, w')
  | (Exit n, w') => (Exit n, w')
  end.

(** [try: m except Exception as e: h e] *)
Definition try_catch {Outside A} (m : M Outside A) (h : exn -> M Outside A)
    : M Outside A := λ w,
  match m w with
  | (Raise e, w') => h e w'
  | r => r
  end.

(** [sys.exit(status)] *)
Definition sys_exit {Outside A} (status : Z) : M Outside A := λ w, (Exit status, w).

Definition emit {Outside} (e : Event) : M Outside unit := λ w,
  (Ret tt, {| outside := outside w; files := files w; trace := trace w ++ [e] |}).

(** [print(line)], on a standard output that takes the line. *)
Definition print {Outside} (line : string) : M Outside unit := emit (EvPrint line).

(** An oracle call that answers with a value or an exception. *)
Definition ask {Outside A} (f : Outside -> (exn + A) * Outside)
    (ev : exn + A -> Event) : M Outside A := λ w,
  let '(r, o) := f (outside w) in
  let w' := {| outside := o; files := files w; trace := trace w ++ [ev r] |} in
  match r with
  | inl e => (Raise e, w')
  | inr a => (Ret a, w')
  end.

(** An oracle call made for its effect. *)
Definition perform {Outside} (f : Outside -> option exn * Outside)
    (ev : option exn -> Event) : M Outside unit := λ w,
  let '(r, o) := f (outside w) in
  let w' := {| outside := o; files := files w; trace := trace w ++ [ev r] |} in
  match r with
  | Some e => (Raise e, w')
  | None => (Ret tt, w')
  end.

(** The world [w] after more happened: the outside became [o] and the events
    [evs] were added; the local files are those of [w]. *)
Definition after {Outside} (w : World Outside) (o : Outside) (evs : list Event)
    : World Outside :=
  {| outside := o; files := files w; trace := trace w ++ evs |}.

(** The tickers whose price history was requested, in the order of the
    requests. *)
Definition history_requests (evs : list Event) : list string :=
  omap (λ ev, match ev with EvHistory t _ _ => Some t | _ => None end) evs.

(** [ev] is the arrival of the non-empty price history [h] of [t]. *)
Definition arrival (period t : string) (h : History) (ev : Event) : Prop :=
  hist_empty h = false ∧ ev = EvHistory t period (inr h).

(** What [revenue] holds after lines 38-44, given the answer to the request
    for the financial statements. *)
Definition revenue_of (res : exn + Financials) : option value :=
  match res with inl _ => None | inr fin => total_revenue fin end.

Definition is_print (ev : Event) : Prop := ∃ line, ev = EvPrint line.

(** Record [r] of ticker [t] is what the last arrival of a non-empty price
    history of [t] among [evs] brought: that history, and the revenue read
    from the answer to the request for the statements that followed it. *)
Definition stored (period t : string) (r : SymbolRecord) (evs : list Event) : Prop :=
  ∃ (evs1 : list Event) res evs2,
    evs = evs1 ++ EvHistory t period (inr (history r)) :: EvFinancials t res :: evs2 ∧
    hist_empty (history r) = false ∧
    revenue r = revenue_of res ∧
    ∀ h, ¬ Exists (arrival period t h) evs2.

(** The tickers for which a non-empty price history arrived, in the order of
    the arrivals. *)
Definition arrivals (evs : list Event) : list string :=
  omap (λ ev, match ev with
              | EvHistory t _ (inr h) => if hist_empty h then None else Some t
              | _ => None
              end) evs.

(** The keys of a dictionary once [k] is set in it: a key that is there
    keeps its place, a new one goes last. *)
Definition set_key (ks : list string) (k : string) : list string :=
  if bool_decide (k ∈ ks) then ks else ks ++ [k].

(** What was handed to S3, attempt by attempt: the key and the bytes. *)
Definition upload_attempts (evs : list Event) : list (string * list Byte.byte) :=
  omap (λ ev, match ev with
              | EvUpload _ key body _ _ => Some (key, body)
              | _ => None
              end) evs.

(** [ev] touches the local disk. *)
Definition disk_event (ev : Event) : Prop :=
  match ev with
  | EvOpen _ _ | EvWrite _ _ _ => True
  | _ => False
  end.

(** The collaborators of the script, as oracles over the outside state. *)
Class Externals (Outside : Type) : Type := {
  (** [yf.Ticker(ticker).history(period=period)] *)
  yf_history : string -> string -> Outside -> (exn + History) * Outside;
  (** [stock.financials], and with it whatever lines 40-42 may raise *)
  yf_financials : string -> Outside -> (exn + Financials) * Outside;
  (** [str(uuid.uuid4())] *)
  uuid4 : Outside -> string * Outside;
  (** [boto3.client(...)] followed by [upload_fileobj(buffer, bucket, key,
      ExtraArgs=...)], given the configuration, the bucket, the key, the
      bytes and the content type; [Some e] when either call raises. *)
  s3_upload : Config -> option string -> string -> list Byte.byte -> string ->
              Outside -> option exn * Outside;
  (** [open(path, wb)]; [Some e] when it raises. *)
  os_open_wb : string -> Outside -> option exn * Outside;
  (** [f.write(bytes)] on the file opened at [path]. *)
  os_write : string -> list Byte.byte -> Outside -> option exn * Outside;
  (** The markup plotly writes for a figure with [full_html=False] and
      [include_plotlyjs=cdn], given the identifier of the figure's div. *)
  plotly_markup : Figure -> string -> string;
  (** What [px.bar] makes of names and values of which one is a row. *)
  plotly_bar_of_rows : list string -> list value -> exn + Figure;
  (** Whether the installed pandas fills gaps forward in [pct_change]. *)
  pandas_pads : bool;
  (** Whether the installed pandas refuses in [melt] a [value_name] that is
      the name of a column. *)
  pandas_melt_strict : bool;
  (** [Series.mean()] on the cells of a column. *)
  pd_mean : list float -> float;
  (** [Series.sort_values()] on a series of named numbers. *)
  pd_sort_values : list (string * float) -> list (string * float)
}.

Section Script.

Context `{Externals Outside}.

(** ** [get_financial_data] (lines 28-49) *)

Definition stock_history (ticker period : string) : M Outside History :=
  ask (yf_history ticker period) (EvHistory ticker period).

Definition stock_financials (ticker : string) : M Outside Financials :=
  ask (yf_financials ticker) (EvFinancials ticker).

(** Lines 38-44. *)
Definition fetch_revenue (ticker : string) : M Outside (option value) :=
  try_catch
    (fin ← stock_financials ticker; mret (total_revenue fin))
    (λ e, print ("⚠️ Revenue fetch error for " +:+ ticker +:+ ": " +:+ str_exn e);;
          mret None).

(** The body of the [for] loop, lines 31-48; the result is [all_data] after
    the iteration. *)
Definition fetch_ticker (period : string) (all_data : dict SymbolRecord)
    (ticker : string) : M Outside (dict SymbolRecord) :=
  print ("Fetching data for: " +:+ ticker);;
  try_catch
    (hist ← stock_history ticker period;
     if hist_empty hist then
       print ("⚠️ No data for " +:+ ticker);; mret all_data
     else
       revenue ← fetch_revenue ticker;
       mret (dict_set all_data ticker {| history := hist; revenue := revenue |}))
    (λ e, print ("❌ Failed to fetch " +:+ ticker +:+ ": " +:+ str_exn e);;
          mret all_data).

Fixpoint fetch_loop (period : string) (all_data : dict SymbolRecord)
    (tickers : list string) : M Outside (dict SymbolRecord) :=
  match tickers with
  | [] => mret all_data
  | ticker :: rest =>
      all_data' ← fetch_ticker period all_data ticker;
      fetch_loop period all_data' rest
  end.

Definition get_financial_data (tickers : list string) (period : string)
    : M Outside (dict SymbolRecord) :=
  fetch_loop period [] tickers.

(** ** [create_interactive_plotly_dashboard] (lines 51-80) *)

(** An exception on its way up. *)
Definition raise {A} (e : exn) : M Outside A := λ w, (Raise e, w).

(** The result of a library call that returns or raises. *)
Definition lift {A} (r : exn + A) : M Outside A :=
  match r with
  | inl e => raise e
  | inr a => mret a
  end.

(** Line 52: [pd.concat] raises [ValueError] on an empty list. *)
Definition closing_prices_of (data : dict SymbolRecord) : M Outside Table :=
  match data with
  | [] => raise (Exception "No objects to concatenate")
  | _ :: _ => mret (concat_close data)
  end.

Definition create_interactive_plotly_dashboard (data : dict SymbolRecord)
    (group_name time_period : string) : M Outside (list Figure) :=
  emit (EvBuild group_name);;
  closing_prices ← closing_prices_of data;
  melted_prices ← lift (reset_index_melt pandas_melt_strict closing_prices);
  let fig1 := px_line closing_prices
                ("📈 Price Trend Over Time (" +:+ group_name +:+ ")") in
  let fig2 := px_box melted_prices "📦 Stock Price Distribution" in
  fig3 ← lift (revenue_figure plotly_bar_of_rows data);
  let returns :=
    average_returns pandas_pads pd_mean pd_sort_values closing_prices in
  let fig4 := returns_figure returns in
  mret [fig1; fig2; fig3; fig4].

(** ** [save_plotly_figures_as_html] (lines 82-125) *)

(** [fig.to_html(full_html=False, include_plotlyjs=cdn)]: no [div_id] is
    passed, so plotly draws a fresh [uuid4] for the div of the figure. *)
Definition to_html (fig : Figure) : M Outside string := λ w,
  let '(id, o) := uuid4 (outside w) in
  (Ret (plotly_markup fig id),
   {| outside := o; files := files w; trace := trace w ++ [EvUuid id] |}).

(** Line 90: the comprehension runs over [figures] in order and the pieces
    are joined with nothing in between. *)
Fixpoint combined_html (figures : list Figure) : M Outside string :=
  match figures with
  | [] => mret EmptyString
  | fig :: rest =>
      markup ← to_html fig;
      tail ← combined_html rest;
      mret (chart_container markup +:+ tail)
  end.

(** Lines 83-102: the document, as text. *)
Definition dashboard_document (figures : list Figure)
    (group_name time_period : string) : M Outside string :=
  combined ← combined_html figures;
  mret (full_html group_name time_period combined).

Definition set_file (path : string) (body : list Byte.byte) : M Outside unit := λ w,
  (Ret tt, {| outside := outside w; files := <[path := body]> (files w); trace := trace w |}).

(** Lines 123-124: opening for writing creates or empties the file, the
    write then fills it. *)
Definition write_file (path : string) (body : list Byte.byte) : M Outside unit :=
  perform (os_open_wb path) (EvOpen path);;
  set_file path [];;
  perform (os_write path body) (EvWrite path body);;
  set_file path body.

(** Lines 107-120. *)
Definition upload (cfg : Config) (filename : string) (buffer : list Byte.byte)
    : M Outside unit :=
  perform (s3_upload cfg (AWS_BUCKET_NAME cfg) filename buffer "text/html")
          (EvUpload (AWS_BUCKET_NAME cfg) filename buffer "text/html");;
  print ("✅ Dashboard uploaded to S3: s3://" +:+ fmt_option (AWS_BUCKET_NAME cfg)
         +:+ "/" +:+ filename).

Definition save_plotly_figures_as_html (cfg : Config) (figures : list Figure)
    (group_name time_period : string) : M Outside unit :=
  emit (EvPublish group_name);;
  full_html ← dashboard_document figures group_name time_period;
  let buffer := encode_utf8 full_html in
  let filename := dashboard_filename group_name time_period in
  try_catch
    (upload cfg filename buffer)
    (λ e, print ("❌ Upload failed: " +:+ str_exn e);;
          write_file filename buffer;;
          print ("✅ Saved locally as " +:+ filename)).

(** ** The script *)

(** Lines 12-21. *)
Definition startup (environ dotenv : gmap string string) : M Outside Config :=
  let cfg := read_config (load_dotenv environ dotenv) in
  if negb (credentials_present cfg) then
    print "❌ AWS credentials missing. Check .env or environment variables.";;
    sys_exit 1
  else mret cfg.

(** Lines 130-133 and 136-139 without the [print] before them. *)
Definition run_group (cfg : Config) (group_name time_period : string) : M Outside unit :=
  data ← get_financial_data (tickers_of group_name) time_period;
  if truthy data then
    figs ← create_interactive_plotly_dashboard data group_name time_period;
    save_plotly_figures_as_html cfg figs group_name time_period
  else mret tt.

(** Lines 127-139. *)
Definition main (cfg : Config) : M Outside unit :=
  print "📊 Fetching financial data for US Banks...";;
  let time_period := "5y" in
  run_group cfg "US Banks" time_period;;
  print "📊 Fetching financial data for US Banks in India...";;
  run_group cfg "US Banks in India" time_period.

Definition script (environ dotenv : gmap string string) : M Outside unit :=
  cfg ← startup environ dotenv;
  main cfg.

(** The exit status of the interpreter: an uncaught exception gives 1. *)
Definition exit_status (o : Outcome unit) : Z :=
  match o with
  | Ret _ => 0
  | Raise _ => 1
  | Exit n => n
  end.

(** The report-building and serialisation steps one after the other: the
    document made from a dataset. *)
Definition report (data : dict SymbolRecord) (group_name time_period : string)
    : M Outside string :=
  figs ← create_interactive_plotly_dashboard data group_name time_period;
  dashboard_document figs group_name time_period.

(** The next [n] identifiers [uuid4] gives, and the outside state after. *)
Fixpoint draw_ids (n : nat) (o : Outside) : list string * Outside :=
  match n with
  | O => ([], o)
  | S n' =>
      let '(id, o1) := uuid4 o in
      let '(ids, o2) := draw_ids n' o1 in
      (id :: ids, o2)
  end.

End Script.

(** ** Reading a document back *)

(** [join] of Python on the empty separator. *)
Definition join (pieces : list string) : string :=
  fold_right String.append EmptyString pieces.

(** A match of [pat] may start at the head of [s]: one is a prefix of the
    other. *)
Fixpoint compatible (pat s : string) : bool :=
  match pat, s with
  | EmptyString, _ => true
  | _, EmptyString => true
  | String a pat', String b s' => if Ascii.eqb a b then compatible pat' s' else false
  end.

(** No match of [pat] starts inside [s], whatever follows [s]. *)
Fixpoint clean (pat s : string) : bool :=
  match s with
  | EmptyString => true
  | String _ s' => negb (compatible pat s) && clean pat s'
  end.

Fixpoint drop_prefix (pat s : string) : string :=
  match pat, s with
  | String _ pat', String _ s' => drop_prefix pat' s'
  | _, _ => s
  end.

(** The text before and the text after the first occurrence of [pat]. *)
Fixpoint split_on (pat s : string) : option (string * string) :=
  if String.prefix pat s then Some (EmptyString, drop_prefix pat s)
  else
    match s with
    | EmptyString => None
    | String c s' =>
        match split_on pat s' with
        | Some (before, rest) => Some (String c before, rest)
        | None => None
        end
    end.

Definition contains (pat s : string) : bool :=
  match split_on pat s with Some _ => true | None => false end.

(** The text of the first [<tag>] element of a document. *)
Definition element_text (tag doc : string) : option string :=
  match split_on ("<" +:+ tag +:+ ">") doc with
  | Some (_, rest) =>
      match split_on ("</" +:+ tag +:+ ">") rest with
      | Some (txt, _) => Some txt
      | None => None
      end
  | None => None
  end.

(** The character that opens a tag does not occur in [s]. *)
Fixpoint no_lt (s : string) : bool :=
  match s with
  | EmptyString => true
  | String c s' => negb (Ascii.eqb c "<"%char) && no_lt s'
  end.

(** The fixed text of the page before the title, between the title and the
    heading, and after the heading, as the f-string of [full_html] lays it
    out around [combined_html]. *)
Definition page_head : string :=
  nl +:+ "    <html>" +:+ nl +:+ "    <head>" +:+ nl +:+ "        ".

Definition page_mid : string :=
  nl +:+ "        " +:+ styles +:+ nl +:+ "    </head>" +:+ nl +:+
  "    <body>" +:+ nl +:+ "        ".

Definition page_tail (combined_html : string) : string :=
  nl +:+ "        " +:+ combined_html +:+ nl +:+ "    </body>" +:+ nl +:+
  "    </html>" +:+ nl +:+ "    ".

(** Both the title and the first heading of [doc] contain [s]. *)
Definition title_and_h1_contain (s doc : string) : bool :=
  match element_text "title" doc, element_text "h1" doc with
  | Some t, Some h => contains s t && contains s h
  | _, _ => false
  end.

(** The events of [get_financial_data]. *)
Definition fetch_event (ev : Event) : Prop :=
  match ev with
  | EvPrint _ | EvHistory _ _ _ | EvFinancials _ _ => True
  | _ => False
  end.

(** ** A small world to run the script in

    The market data service knows three tickers; S3 and the disk work or not
    according to a switch; identifiers are numbered from a counter. *)

Record Demo : Type := {
  next_id : nat;
  market_up : bool;
  s3_up : bool;
  disk_ok : bool
}.

(** A decimal stands for the nearest float64, as it does in Python. *)
Set Warnings "-inexact-float".

Definition demo_row (d : Z) (c : float) : Row :=
  {| date := d; close := c |}.

Definition rising : History :=
  [demo_row 1 10%float; demo_row 2 11%float; demo_row 3 12%float].
Definition falling : History :=
  [demo_row 1 10%float; demo_row 2 9%float; demo_row 3 8%float].

Definition demo_history (ticker : string) : exn + History :=
  if String.eqb ticker "JPM" then inr rising
  else if String.eqb ticker "BAC" then inr falling
  else if String.eqb ticker "WFC" then inr rising
  else if String.eqb ticker "C" then inr []
  else inl (Exception "no such ticker").

Definition demo_financials (ticker : string) : exn + Financials :=
  if String.eqb ticker "JPM" then
    inr [("Total Revenue", [100%float; 90%float])]
  else if String.eqb ticker "BAC" then inr [("Net Income", [7%float])]
  else inl (Exception "no statements").

Definition demo_decimal (n : nat) : string := pretty.pretty n.

(** A mean that skips [nan] and adds up from the left. *)
Definition demo_mean (xs : list float) : float :=
  let ys := List.filter (λ x, negb (PrimFloat.is_nan x)) xs in
  (fold_left PrimFloat.add ys 0 / fold_left (λ n _, n + 1) ys 0)%float.

(** Insertion after the entries that are not greater, a missing value being
    greater than every number. *)
Fixpoint demo_insert (kv : string * float) (s : list (string * float))
    : list (string * float) :=
  match s with
  | [] => [kv]
  | kv' :: s' =>
      if PrimFloat.ltb (snd kv) (snd kv')
         || PrimFloat.is_nan (snd kv') && negb (PrimFloat.is_nan (snd kv))
      then kv :: s
      else kv' :: demo_insert kv s'
  end.

Definition demo_sort (s : list (string * float)) : list (string * float) :=
  fold_left (λ acc kv, demo_insert kv acc) s [].

Definition demo_externals_with (pads : bool) : Externals Demo :=
  {| yf_history ticker period o :=
       (if market_up o then demo_history ticker else inl (Exception "offline"), o);
     yf_financials ticker o :=
       (if market_up o then demo_financials ticker else inl (Exception "offline"), o);
     uuid4 o :=
       ("chart-" +:+ demo_decimal (next_id o),
        {| next_id := S (next_id o); market_up := market_up o;
           s3_up := s3_up o; disk_ok := disk_ok o |});
     s3_upload cfg bucket key body content_type o :=
       (if s3_up o then None else Some (Exception "could not connect"), o);
     os_open_wb path o :=
       (if disk_ok o then None else Some (Exception "permission denied"), o);
     os_write path body o := (None, o);
     plotly_markup fig id :=
       "<div id=" +:+ dquote +:+ id +:+ dquote +:+ ">" +:+ fig_title fig +:+ "</div>";
     plotly_bar_of_rows x y := inl (Exception "All arguments should have the same length.");
     pandas_pads := pads;
     pandas_melt_strict := true;
     pd_mean := demo_mean;
     pd_sort_values := demo_sort |}.

(** The small world has a pandas from 2.0 on and before 3.0, which fills
    gaps forward. *)
Definition demo_externals : Externals Demo := demo_externals_with true.

Definition demo_world (first_id : nat) (market s3 disk : bool) : World Demo :=
  {| outside := {| next_id := first_id; market_up := market; s3_up := s3; disk_ok := disk |};
     files := ∅;
     trace := [] |}.

Definition demo_config : Config :=
  {| AWS_BUCKET_NAME := Some "reports";
     AWS_DEFAULT_REGION := "us-east-1";
     AWS_ACCESS_KEY_ID := Some "id";
     AWS_SECRET_ACCESS_KEY := Some "secret" |}.

(** A dataset with a rising and a falling series. *)
Definition demo_data : dict SymbolRecord :=
  [ ("JPM", {| history := rising; revenue := Some (Cell 100%float) |});
    ("BAC", {| history := falling; revenue := None |}) ].



(** The rising and the falling series without any revenue. *)
Definition demo_data_no_revenue : dict SymbolRecord :=
  [ ("JPM", {| history := rising; revenue := None |});
    ("BAC", {| history := falling; revenue := None |}) ].

(** Datasets with a symbol named as line 55 names a column. *)
Definition date_data : dict SymbolRecord :=
  [ ("JPM", {| history := rising; revenue := None |});
    ("Date", {| history := falling; revenue := None |}) ].

Definition close_data : dict SymbolRecord :=
  [ ("Close", {| history := rising; revenue := None |}) ].

(** * Properties *)

Section Properties.

Context `{Externals Outside}.

Implicit Types (w : World Outside) (d : dict SymbolRecord) (t period : string).

(** ** Dictionaries *)

Lemma keys_dict_set {V} (d : dict V) k v :
  ∀ k', k' ∈ keys (dict_set d k v) ↔ k' = k ∨ k' ∈ keys d.
Proof.
  induction d as [|[k0 v0] d IH]; intros k'; simpl.
  - rewrite list_elem_of_singleton, elem_of_nil. tauto.
  - destruct (String.eqb_spec k0 k) as [->|Hne]; simpl.
    + rewrite !elem_of_cons. tauto.
    + rewrite !elem_of_cons, IH. tauto.
Qed.

Lemma NoDup_keys_dict_set {V} (d : dict V) k v :
  NoDup (keys d) → NoDup (keys (dict_set d k v)).
Proof.
  induction d as [|[k0 v0] d IH]; simpl; intros Hnd.
  - apply NoDup_singleton.
  - apply NoDup_cons in Hnd as [Hnotin Hnd].
    destruct (String.eqb_spec k0 k) as [->|Hne]; simpl.
    + apply NoDup_cons. auto.
    + apply NoDup_cons. split; [|auto].
      change (k0 ∉ keys (dict_set d k v)).
      rewrite keys_dict_set. intros [->|Hin]; [congruence|]. apply Hnotin, Hin.
Qed.

Lemma dict_get_set_eq {V} (d : dict V) k v : dict_get (dict_set d k v) k = Some v.
Proof.
  induction d as [|[k0 v0] d IH]; simpl.
  - by rewrite String.eqb_refl.
  - destruct (String.eqb_spec k0 k) as [->|Hne]; simpl.
    + by rewrite String.eqb_refl.
    + destruct (String.eqb_spec k0 k); [done|]. apply IH.
Qed.

Lemma dict_get_set_ne {V} (d : dict V) k k' v :
  k ≠ k' → dict_get (dict_set d k v) k' = dict_get d k'.
Proof.
  intros Hne. induction d as [|[k0 v0] d IH]; simpl.
  - destruct (String.eqb_spec k k'); [done|reflexivity].
  - destruct (String.eqb_spec k0 k) as [->|Hne0]; simpl.
    + destruct (String.eqb_spec k k'); [done|reflexivity].
    + destruct (String.eqb_spec k0 k'); [reflexivity|apply IH].
Qed.

Lemma keys_dict_get {V} (d : dict V) k : k ∈ keys d → is_Some (dict_get d k).
Proof.
  induction d as [|[k0 v0] d IH]; simpl.
  - intros Hin. by apply elem_of_nil in Hin.
  - intros Hin. destruct (String.eqb_spec k0 k) as [->|Hne]; [by eexists|].
    apply elem_of_cons in Hin as [->|Hin]; [done|]. apply IH, Hin.
Qed.

(** ** Running the monad *)

Lemma after_after w o evs o' evs' :
  after (after w o evs) o' evs' = after w o' (evs ++ evs').
Proof. unfold after. simpl. by rewrite app_assoc. Qed.

Lemma emit_run ev w : emit ev w = (Ret tt, after w (outside w) [ev]).
Proof. reflexivity. Qed.

(** ** The fetcher *)

(** One iteration of the loop, case by case on what the service answers. *)
Lemma fetch_ticker_run period d t w :
  fetch_ticker period d t w =
    let p0 := EvPrint ("Fetching data for: " +:+ t) in
    let '(r, o1) := yf_history t period (outside w) in
    match r with
    | inl e =>
        (Ret d, after w o1 [p0; EvHistory t period r;
                            EvPrint ("❌ Failed to fetch " +:+ t +:+ ": " +:+ str_exn e)])
    | inr h =>
        if hist_empty h then
          (Ret d, after w o1 [p0; EvHistory t period r;
                              EvPrint ("⚠️ No data for " +:+ t)])
        else
          let '(rf, o2) := yf_financials t o1 in
          match rf with
          | inl e =>
              (Ret (dict_set d t {| history := h; revenue := None |}),
               after w o2 [p0; EvHistory t period r; EvFinancials t rf;
                           EvPrint ("⚠️ Revenue fetch error for " +:+ t +:+ ": "
                                    +:+ str_exn e)])
          | inr fin =>
              (Ret (dict_set d t {| history := h; revenue := total_revenue fin |}),
               after w o2 [p0; EvHistory t period r; EvFinancials t rf])
          end
    end.
Proof.
  unfold fetch_ticker, fetch_revenue, stock_history, stock_financials, print,
    try_catch, ask, emit, mbind, M_bind, mret, M_ret, after. simpl.
  destruct (yf_history t period (outside w)) as [[e|h] o1]; simpl.
  - by rewrite <- !app_assoc.
  - destruct h as [|r0 h]; simpl.
    + by rewrite <- !app_assoc.
    + destruct (yf_financials t o1) as [[e|fin] o2]; simpl;
        by rewrite <- !app_assoc.
Qed.

Lemma after_same w : after w (outside w) [] = w.
Proof. destruct w. unfold after. simpl. by rewrite app_nil_r. Qed.

Lemma no_arrival_prints period t h evs :
  Forall is_print evs → ¬ Exists (arrival period t h) evs.
Proof.
  intros Hp Hex. apply Exists_exists in Hex as (ev & Hin & _ & ->).
  rewrite Forall_forall in Hp. destruct (Hp _ Hin) as [line Heq]. discriminate.
Qed.

Lemma fetch_ticker_post period d t w :
  ∃ d' o' evs,
    fetch_ticker period d t w = (Ret d', after w o' evs) ∧
    history_requests evs = [t] ∧
    ((d' = d ∧ ∀ t' h, ¬ Exists (arrival period t' h) evs) ∨
     (∃ h res line post,
        d' = dict_set d t {| history := h; revenue := revenue_of res |} ∧
        hist_empty h = false ∧
        evs = EvPrint line :: EvHistory t period (inr h) :: EvFinancials t res :: post ∧
        Forall is_print post)).
Proof.
  rewrite fetch_ticker_run. simpl.
  destruct (yf_history t period (outside w)) as [[e|h] o1].
  - eexists _, _, _. split; [reflexivity|]. split; [reflexivity|]. left.
    split; [reflexivity|]. intros t' h Hex.
    rewrite !Exists_cons, Exists_nil in Hex.
    destruct Hex as [[_ ?]|[[_ ?]|[[_ ?]|[]]]]; discriminate.
  - destruct (hist_empty h) eqn:Hemp.
    + eexists _, _, _. split; [reflexivity|]. split; [reflexivity|]. left.
      split; [reflexivity|]. intros t' h' Hex.
      rewrite !Exists_cons, Exists_nil in Hex.
      destruct Hex as [[_ ?]|[[Hne Heq]|[[_ ?]|[]]]]; try discriminate.
      congruence.
    + destruct (yf_financials t o1) as [[e|fin] o2].
      * eexists _, _, _. split; [reflexivity|]. split; [reflexivity|]. right.
        exists h, (inl e). eexists _, _. repeat split; try done.
        repeat constructor. by eexists.
      * eexists _, _, _. split; [reflexivity|]. split; [reflexivity|]. right.
        exists h, (inr fin). eexists _, _. repeat split; try done.
Qed.

Lemma fetch_loop_post period tickers : ∀ d w, ∃ data o' evs,
  fetch_loop period d tickers w = (Ret data, after w o' evs) ∧
  history_requests evs = tickers ∧
  (NoDup (keys d) → NoDup (keys data)) ∧
  (∀ t, t ∈ keys data ↔ t ∈ keys d ∨ ∃ h, Exists (arrival period t h) evs) ∧
  (∀ t r, dict_get data t = Some r →
     (dict_get d t = Some r ∧ ∀ h, ¬ Exists (arrival period t h) evs) ∨
     stored period t r evs).
Proof.
  induction tickers as [|t rest IH]; intros d w.
  - exists d, (outside w), []. rewrite after_same.
    split; [reflexivity|]. split; [reflexivity|]. split; [auto|]. split.
    + intros t. split; [auto|]. intros [?|[h Hex]]; [done|]. by apply Exists_nil in Hex.
    + intros t r Hg. left. split; [done|]. intros h Hex. by apply Exists_nil in Hex.
  - destruct (fetch_ticker_post period d t w) as (d' & o1 & evs1 & Hrun & Hreq & Hcase).
    destruct (IH d' (after w o1 evs1))
      as (data & o2 & evs2 & Hrun2 & Hreq2 & Hnd & Hkeys & Hget).
    exists data, o2, (evs1 ++ evs2). split.
    { simpl. unfold mbind, M_bind. by rewrite Hrun, Hrun2, after_after. }
    split.
    { unfold history_requests in *. by rewrite omap_app, Hreq, Hreq2. }
    destruct Hcase as [[-> Hno]|(h & res & line & post & -> & Hemp & -> & Hpost)].
    + split; [exact Hnd|]. split.
      * intros t'. rewrite Hkeys. setoid_rewrite Exists_app.
        split; [intros [?|[h' ?]]; eauto|].
        intros [?|[h' [Hex|Hex]]]; eauto. by apply Hno in Hex.
      * intros t' r Hg. destruct (Hget _ _ Hg) as [[Hd Hno2]|Hst].
        -- left. split; [done|]. intros h'. rewrite Exists_app.
           intros [Hex|Hex]; [by apply Hno in Hex|by apply Hno2 in Hex].
        -- right. destruct Hst as (pre & res & suf & -> & ? & ? & ?).
           exists (evs1 ++ pre), res, suf. by rewrite <- app_assoc.
    + set (rec := {| history := h; revenue := revenue_of res |}) in *.
      set (evs1 := EvPrint line :: EvHistory t period (inr h)
                   :: EvFinancials t res :: post) in *.
      assert (Harr : ∀ t' h', Exists (arrival period t' h') evs1 ↔ t' = t ∧ h' = h).
      { intros t' h'. unfold evs1. rewrite !Exists_cons. split.
        - intros [[_ ?]|[[_ Heq]|[[_ ?]|Hex]]]; try discriminate.
          + by injection Heq as -> ->.
          + by apply no_arrival_prints in Hex.
        - intros [-> ->]. right. left. by split. }
      split; [intros Hd; by apply Hnd, NoDup_keys_dict_set|]. split.
      * intros t'. rewrite Hkeys, keys_dict_set. setoid_rewrite Exists_app.
        setoid_rewrite Harr. split.
        -- intros [[->|?]|[h' ?]]; eauto.
        -- intros [?|[h' [[-> _]|?]]]; eauto.
      * intros t' r Hg. destruct (Hget _ _ Hg) as [[Hd Hno2]|Hst].
        -- destruct (decide (t = t')) as [<-|Hne].
           ++ rewrite dict_get_set_eq in Hd. injection Hd as <-.
              right. exists [EvPrint line], res, (post ++ evs2).
              split; [reflexivity|]. split; [done|]. split; [done|].
              intros h'. rewrite Exists_app.
              intros [Hex|Hex]; [by apply no_arrival_prints in Hex|by apply Hno2 in Hex].
           ++ rewrite dict_get_set_ne in Hd by done.
              left. split; [done|]. intros h'. rewrite Exists_app, Harr.
              intros [[? _]|Hex]; [congruence|by apply Hno2 in Hex].
        -- right. destruct Hst as (pre & res' & suf & -> & ? & ? & ?).
           exists (evs1 ++ pre), res', suf. by rewrite <- app_assoc.
Qed.

Lemma last_split_unique {A} (P : A → Prop) (a1 : list A) x b1 a2 y b2 :
  a1 ++ x :: b1 = a2 ++ y :: b2 → P x → P y →
  ¬ Exists P b1 → ¬ Exists P b2 → a1 = a2 ∧ x = y ∧ b1 = b2.
Proof.
  revert a2. induction a1 as [|a a1 IH]; intros [|z a2]; simpl;
    intros Heq Hx Hy Hb1 Hb2; injection Heq as -> Heq.
  - by subst.
  - exfalso. apply Hb1. rewrite Heq, Exists_app, Exists_cons. auto.
  - exfalso. apply Hb2. rewrite <- Heq, Exists_app, Exists_cons. auto.
  - destruct (IH a2 Heq Hx Hy Hb1 Hb2) as (-> & -> & ->). done.
Qed.

(** The last non-empty history that arrived for a ticker is the one in the
    result, whatever arrived for it before. *)
Lemma stored_last_arrival period t r (evs evs1 evs2 : list Event) h res :
  stored period t r evs →
  evs = evs1 ++ EvHistory t period (inr h) :: EvFinancials t res :: evs2 →
  hist_empty h = false →
  (∀ h', ¬ Exists (arrival period t h') evs2) →
  r = {| history := h; revenue := revenue_of res |}.
Proof.
  intros (pre & res' & suf & Heq & Hemp' & Hrev & Hno') -> Hemp Hno.
  apply (last_split_unique (λ ev, ∃ h', arrival period t h' ev)) in Heq
    as (_ & Hev & Hsuf).
  - injection Hev as Hh. injection Hsuf as -> _.
    destruct r as [hr rr]; simpl in *. by subst.
  - eexists. split; [|reflexivity]. assumption.
  - eexists. split; [|reflexivity]. assumption.
  - rewrite Exists_cons. intros [[h' [_ ?]]|Hex]; [discriminate|].
    apply Exists_exists in Hex as (ev & Hin & h' & Harr).
    apply (Hno h'), Exists_exists. eauto.
  - rewrite Exists_cons. intros [[h' [_ ?]]|Hex]; [discriminate|].
    apply Exists_exists in Hex as (ev & Hin & h' & Harr).
    apply (Hno' h'), Exists_exists. eauto.
Qed.

(** C3. [get_financial_data] always returns. It asks for the price history
    of every ticker of the group, in order, whatever the earlier ones
    answered; its result holds exactly the tickers for which a non-empty
    history arrived; each entry keeps the history that arrived, and when the
    request for the statements that followed the (last) arrival failed, the
    ticker is in the result with that history and [revenue = None]. *)
Theorem fetch_isolates_failures (tickers : list string) period w :
  ∃ data o' evs,
    get_financial_data tickers period w = (Ret data, after w o' evs) ∧
    history_requests evs = tickers ∧
    (∀ t, t ∈ keys data ↔ ∃ h, Exists (arrival period t h) evs) ∧
    (∀ t r, dict_get data t = Some r →
       hist_empty (history r) = false ∧
       Exists (arrival period t (history r)) evs) ∧
    (∀ t h e (evs1 evs2 : list Event),
       evs = evs1 ++ EvHistory t period (inr h) :: EvFinancials t (inl e) :: evs2 →
       hist_empty h = false →
       (∀ h', ¬ Exists (arrival period t h') evs2) →
       dict_get data t = Some {| history := h; revenue := None |}).
Proof.
  destruct (fetch_loop_post period tickers [] w)
    as (data & o' & evs & Hrun & Hreq & _ & Hkeys & Hget).
  assert (Hst : ∀ t r, dict_get data t = Some r → stored period t r evs).
  { intros t r Hg. by destruct (Hget _ _ Hg) as [[? _]|?]. }
  exists data, o', evs. split; [exact Hrun|]. split; [exact Hreq|]. split; [|split].
  - intros t. rewrite Hkeys. simpl. rewrite elem_of_nil. tauto.
  - intros t r Hg. destruct (Hst _ _ Hg) as (pre & res & suf & -> & Hemp & _ & _).
    split; [done|]. rewrite Exists_app, Exists_cons. right. left. by split.
  - intros t h e evs1 evs2 Heq Hemp Hno.
    assert (Hin : t ∈ keys data).
    { apply Hkeys. right. exists h. rewrite Heq, Exists_app, Exists_cons.
      right. left. by split. }
    apply keys_dict_get in Hin as [r Hg]. rewrite Hg. f_equal.
    exact (stored_last_arrival _ _ _ _ _ _ _ _ (Hst _ _ Hg) Heq Hemp Hno).
Qed.

(** C10. Whatever the tickers, repeated or not, the result of
    [get_financial_data] has no key twice. Every occurrence of a ticker is
    requested, and of the non-empty histories that arrive for a ticker the
    last one is the one stored, with the revenue that came with it. *)
Theorem fetch_keeps_one_entry_per_symbol (tickers : list string) period w :
  ∃ data o' evs,
    get_financial_data tickers period w = (Ret data, after w o' evs) ∧
    NoDup (keys data) ∧
    history_requests evs = tickers ∧
    (∀ t h res (evs1 evs2 : list Event),
       evs = evs1 ++ EvHistory t period (inr h) :: EvFinancials t res :: evs2 →
       hist_empty h = false →
       (∀ h', ¬ Exists (arrival period t h') evs2) →
       dict_get data t = Some {| history := h; revenue := revenue_of res |}).
Proof.
  destruct (fetch_loop_post period tickers [] w)
    as (data & o' & evs & Hrun & Hreq & Hnd & Hkeys & Hget).
  exists data, o', evs. split; [exact Hrun|].
  split; [apply Hnd, NoDup_nil_2|]. split; [exact Hreq|].
  intros t h res evs1 evs2 Heq Hemp Hno.
  assert (Hin : t ∈ keys data).
  { apply Hkeys. right. exists h. rewrite Heq, Exists_app, Exists_cons.
    right. left. by split. }
  apply keys_dict_get in Hin as [r Hg]. rewrite Hg. f_equal.
  destruct (Hget _ _ Hg) as [[Hd _]|Hst]; [discriminate|].
  exact (stored_last_arrival _ _ _ _ _ _ _ _ Hst Heq Hemp Hno).
Qed.

(** ** The report builder *)

Lemma forallb_same_index i0 (indexes : list (list Date)) :
  forallb (same_index i0) indexes = true → ∀ i, i ∈ indexes → i = i0.
Proof.
  intros Hall i Hin. rewrite forallb_forall in Hall.
  apply list_elem_of_In, Hall in Hin. by apply bool_decide_eq_true in Hin.
Qed.

Lemma concat_close_names data : map fst (columns (concat_close data)) = keys data.
Proof.
  unfold concat_close.
  destruct (map (λ r, close_index (history r)) (values data)) as [|i0 indexes] eqn:Hidx.
  - by destruct data.
  - destruct (forallb (same_index i0) (i0 :: indexes)); cbn [columns];
      by rewrite map_map.
Qed.

Lemma concat_close_lengths data :
  Forall (λ col, length (snd col) = length (index (concat_close data)))
         (columns (concat_close data)).
Proof.
  unfold concat_close.
  destruct (map (λ r, close_index (history r)) (values data)) as [|i0 indexes] eqn:Hidx.
  - by destruct data.
  - destruct (forallb (same_index i0) (i0 :: indexes)) eqn:Hall; cbn [columns index].
    + apply Forall_forall. intros col (kv & -> & Hin)%list_elem_of_fmap. cbn [snd].
      unfold close_values. rewrite length_map.
      rewrite <- (forallb_same_index _ _ Hall (close_index (history (snd kv)))).
      * unfold close_index. by rewrite length_map.
      * rewrite <- Hidx. apply list_elem_of_fmap. exists (snd kv). split; [done|].
        by apply list_elem_of_fmap_2.
    + apply Forall_forall. intros col (kv & -> & Hin)%list_elem_of_fmap. cbn [snd].
      by rewrite length_map.
Qed.

Lemma reset_index_melt_run data :
  "Date" ∉ keys data → (pandas_melt_strict = true → "Close" ∉ keys data) →
  reset_index_melt pandas_melt_strict (concat_close data) = inr (melt (concat_close data)).
Proof.
  intros Hdate Hclose. unfold reset_index_melt. rewrite concat_close_names.
  rewrite bool_decide_eq_false_2 by done.
  destruct pandas_melt_strict; [|done].
  by rewrite bool_decide_eq_false_2 by auto.
Qed.

(** On a dataset line 55 goes through with, the builder ends as [px.bar]
    does on the revenues. *)
Lemma create_dashboard_run data group_name time_period w :
  data ≠ [] →
  "Date" ∉ keys data → (pandas_melt_strict = true → "Close" ∉ keys data) →
  create_interactive_plotly_dashboard data group_name time_period w =
    (match revenue_figure plotly_bar_of_rows data with
     | inl e => Raise e
     | inr f3 =>
         Ret [ px_line (concat_close data)
                 ("📈 Price Trend Over Time (" +:+ group_name +:+ ")");
               px_box (melt (concat_close data)) "📦 Stock Price Distribution";
               f3;
               returns_figure (average_returns pandas_pads pd_mean pd_sort_values
                                 (concat_close data)) ]
     end,
     after w (outside w) [EvBuild group_name]).
Proof.
  intros Hne Hdate Hclose.
  unfold create_interactive_plotly_dashboard, mbind, M_bind. rewrite emit_run.
  destruct data as [|kv data]; [done|]. cbn [closing_prices_of mret M_ret].
  rewrite reset_index_melt_run by done. cbn [lift mret M_ret].
  by destruct (revenue_figure plotly_bar_of_rows (kv :: data)).
Qed.

(** Whatever the dataset, the builder does nothing but compute: its outcome
    is the same in every world, and it is four figures or an exception. *)
Lemma create_dashboard_pure data group_name time_period :
  ∃ r, (∀ status, r ≠ Exit status) ∧
       (∀ figs, r = Ret figs → length figs = 4%nat) ∧
       ∀ w, create_interactive_plotly_dashboard data group_name time_period w =
              (r, after w (outside w) [EvBuild group_name]).
Proof.
  unfold create_interactive_plotly_dashboard, mbind, M_bind.
  destruct data as [|kv data].
  { eexists. split; [|split; [|intros w; rewrite emit_run; reflexivity]]; done. }
  cbn [closing_prices_of mret M_ret].
  destruct (reset_index_melt pandas_melt_strict (concat_close (kv :: data))) as [e|rows].
  { eexists. split; [|split; [|intros w; rewrite emit_run; reflexivity]]; done. }
  cbn [lift mret M_ret].
  destruct (revenue_figure plotly_bar_of_rows (kv :: data)) as [e|f3].
  { eexists. split; [|split; [|intros w; rewrite emit_run; reflexivity]]; done. }
  eexists. split; [|split; [|intros w; rewrite emit_run; reflexivity]]; [done|].
  by intros figs [= <-].
Qed.

(** ** The revenue chart *)

Lemma revenues_spec data k v :
  (k, v) ∈ revenues data ↔ ∃ r, (k, r) ∈ data ∧ revenue r = Some v.
Proof.
  induction data as [|[k0 r0] data IH]; simpl.
  - rewrite elem_of_nil. split; [done|]. intros (r & Hin & _). by apply elem_of_nil in Hin.
  - destruct (revenue r0) as [v0|] eqn:Hr0.
    + rewrite elem_of_cons, IH. split.
      * intros [Heq|(r & Hin & Hr)].
        -- injection Heq as -> ->. exists r0. split; [apply list_elem_of_here|done].
        -- exists r. split; [by apply list_elem_of_further|done].
      * intros (r & Hin & Hr). apply elem_of_cons in Hin as [Heq|Hin].
        -- injection Heq as -> ->. left. congruence.
        -- right. eauto.
    + rewrite IH. split.
      * intros (r & Hin & Hr). exists r. split; [by apply list_elem_of_further|done].
      * intros (r & Hin & Hr). apply elem_of_cons in Hin as [Heq|Hin].
        -- injection Heq as -> ->. congruence.
        -- eauto.
Qed.

Lemma revenues_none data :
  (∀ r, r ∈ values data → revenue r = None) → revenues data = [].
Proof.
  intros Hnone.
  destruct (revenues data) as [|[k v] revs] eqn:Hrevs; [done|].
  assert (Hkv : (k, v) ∈ revenues data) by (rewrite Hrevs; apply list_elem_of_here).
  apply revenues_spec in Hkv as (r & Hin & Hr).
  apply (list_elem_of_fmap_2 snd) in Hin. pose proof (Hnone _ Hin) as Hn.
  simpl in Hn. congruence.
Qed.

Lemma cells_numbers ys : cells (map Cell ys) = Some ys.
Proof. induction ys as [|y ys IH]; [done|]. simpl. by rewrite IH. Qed.

Lemma cells_row vs xs : Series xs ∈ vs → cells vs = None.
Proof.
  induction vs as [|[x|xs'] vs IH]; intros Hin.
  - by apply elem_of_nil in Hin.
  - apply elem_of_cons in Hin as [?|Hin]; [done|]. simpl. by rewrite IH.
  - done.
Qed.

(** C5, amended. Take a non-empty dataset line 55 goes through with: no
    symbol is named Date, and none Close where pandas refuses that. The
    revenues the chart is made of are those of the entries whose revenue is
    not [None], in the order of the dataset. If there is none, the builder
    returns four figures of which the third is the placeholder: no trace,
    and one annotation that reads No Revenue Data Available at the centre of
    the paper. If there are some and each is one number, the builder returns
    four figures of which the third is a bar chart with one bar per such
    entry, labelled by its symbol and as high as its revenue, and no
    annotation. If one of them is a row, the builder ends as [px.bar] does on
    these symbols and values. *)
Theorem revenue_chart data group_name time_period w :
  data ≠ [] →
  "Date" ∉ keys data → (pandas_melt_strict = true → "Close" ∉ keys data) →
  let shown := revenues data in
  (∀ k v, (k, v) ∈ shown ↔ ∃ r, (k, r) ∈ data ∧ revenue r = Some v) ∧
  sublist (keys shown) (keys data) ∧
  ((∀ r, r ∈ values data → revenue r = None) →
     ∃ f1 f2 f3 f4,
       create_interactive_plotly_dashboard data group_name time_period w =
         (Ret [f1; f2; f3; f4], after w (outside w) [EvBuild group_name]) ∧
       fig_data f3 = [] ∧
       fig_title f3 = "💰 Latest Reported Revenue" ∧
       ∃ a, fig_annotations f3 = [a] ∧ text a = "No Revenue Data Available" ∧
            xref a = "paper" ∧ yref a = "paper" ∧
            x_pos a = 0.5%float ∧ y_pos a = 0.5%float ∧ showarrow a = false) ∧
  (∀ ys, shown ≠ [] → values shown = map Cell ys →
     ∃ f1 f2 f3 f4,
       create_interactive_plotly_dashboard data group_name time_period w =
         (Ret [f1; f2; f3; f4], after w (outside w) [EvBuild group_name]) ∧
       fig_data f3 = [Bar (keys shown) ys] ∧
       length (keys shown) = length ys ∧
       fig_title f3 = "💰 Latest Reported Revenue" ∧
       fig_labels f3 = [("x", "Ticker"); ("y", "Revenue")] ∧
       fig_annotations f3 = []) ∧
  ((∃ k xs, (k, Series xs) ∈ shown) →
     ∃ f1 f2 f4,
       create_interactive_plotly_dashboard data group_name time_period w =
         (match plotly_bar_of_rows (keys shown) (values shown) with
          | inl e => Raise e
          | inr f3 => Ret [f1; f2; f3; f4]
          end,
          after w (outside w) [EvBuild group_name])).
Proof.
  intros Hne Hdate Hclose shown. split; [apply revenues_spec|]. split.
  { unfold shown. clear. induction data as [|[k r] data IH]; [done|]. simpl.
    destruct (revenue r); simpl; [by apply sublist_skip|by apply sublist_cons]. }
  rewrite create_dashboard_run by done. unfold revenue_figure, shown. clear shown.
  split; [|split].
  - intros Hnone. rewrite revenues_none by done. cbn [truthy].
    eexists _, _, _, _. split; [reflexivity|]. split; [done|]. split; [done|].
    eexists. split; [reflexivity|]. done.
  - intros ys Hsome Hys. destruct (revenues data) as [|kv revs]; [done|].
    cbn [truthy]. rewrite Hys, cells_numbers.
    eexists _, _, _, _. split; [reflexivity|]. split; [done|].
    split; [|done]. unfold keys. rewrite length_map.
    rewrite <- (length_map Cell ys), <- Hys. unfold values. by rewrite length_map.
  - intros (k & xs & Hin). destruct (revenues data) as [|kv revs].
    { by apply elem_of_nil in Hin. }
    cbn [truthy]. rewrite (cells_row _ xs).
    + exists (px_line (concat_close data)
                ("📈 Price Trend Over Time (" +:+ group_name +:+ ")")),
             (px_box (melt (concat_close data)) "📦 Stock Price Distribution"),
             (returns_figure (average_returns pandas_pads pd_mean pd_sort_values
                                (concat_close data))).
      by destruct (plotly_bar_of_rows (keys (kv :: revs)) (values (kv :: revs))).
    + by apply (list_elem_of_fmap_2 snd) in Hin.
Qed.
(** ** The average returns *)











(** ** The first two charts *)

Lemma line_names (idx : list Date) (cols : list Column) :
  omap trace_name (map (λ c, Scatter (fst c) idx (snd c)) cols) = map fst cols.
Proof. induction cols as [|c cols IH]; [done|]. cbn. by rewrite IH. Qed.

Lemma box_names (n : nat) (cols : list Column) :
  omap trace_name (map (λ c, Box (fst c) (replicate n (fst c)) (snd c)) cols)
  = map fst cols.
Proof. induction cols as [|c cols IH]; [done|]. cbn. by rewrite IH. Qed.

Lemma block_tickers k (idx : list Date) : ∀ cells, length cells = length idx →
  map lr_ticker
      (zip_with (λ day v, {| lr_date := day; lr_ticker := k; lr_close := v |}) idx cells)
    = replicate (length idx) k.
Proof.
  induction idx as [|d idx IH]; intros [|v cells] Hlen; try done.
  cbn. f_equal. apply IH. by injection Hlen.
Qed.

Lemma block_closes k (idx : list Date) : ∀ cells, length cells = length idx →
  map lr_close
      (zip_with (λ day v, {| lr_date := day; lr_ticker := k; lr_close := v |}) idx cells)
    = cells.
Proof.
  induction idx as [|d idx IH]; intros [|v cells] Hlen; try done.
  cbn. f_equal. apply IH. by injection Hlen.
Qed.

Lemma filter_block k k' (idx : list Date) : ∀ cells,
  filter (λ r, lr_ticker r = k')
         (zip_with (λ day v, {| lr_date := day; lr_ticker := k; lr_close := v |}) idx cells)
    = if decide (k = k')
      then zip_with (λ day v, {| lr_date := day; lr_ticker := k; lr_close := v |}) idx cells
      else [].
Proof.
  induction idx as [|d idx IH]; intros [|v cells]; try by case_decide.
  cbn [zip_with]. rewrite filter_cons. cbn [lr_ticker]. rewrite IH.
  by destruct (decide (k = k')).
Qed.

Lemma elem_of_uniques (x : string) (l : list string) : x ∈ uniques l → x ∈ l.
Proof.
  induction l as [|y l IH]; [done|]. cbn [uniques].
  intros [->|Hin]%elem_of_cons; [apply list_elem_of_here|].
  apply list_elem_of_further, IH. by apply list_elem_of_filter in Hin as [_ Hin].
Qed.

Lemma filter_other (k : string) (l : list string) :
  k ∉ l → filter (λ y, y ≠ k) l = l.
Proof.
  induction l as [|y l IH]; intros Hnin; [done|].
  rewrite filter_cons_True.
  - f_equal. apply IH. intros Hin. apply Hnin. by apply list_elem_of_further.
  - intros ->. apply Hnin, list_elem_of_here.
Qed.

Lemma uniques_block n (k : string) (l : list string) :
  n ≠ 0%nat → k ∉ l → uniques (replicate n k ++ l) = k :: uniques l.
Proof.
  intros Hn Hnin. destruct n as [|n]; [done|]. clear Hn.
  assert (Hu : filter (λ y, y ≠ k) (uniques l) = uniques l).
  { apply filter_other. intros Hin. by apply Hnin, elem_of_uniques. }
  induction n as [|n IH].
  - change (replicate 1 k ++ l) with (k :: l). cbn [uniques]. by rewrite Hu.
  - change (replicate (S (S n)) k ++ l) with (k :: (replicate (S n) k ++ l)).
    cbn [uniques]. rewrite IH. rewrite filter_cons_False by (intros Hk; by apply Hk).
    by rewrite Hu.
Qed.

Lemma filter_rows_other k' (idx : list Date) (cols : list Column) :
  k' ∉ map fst cols →
  filter (λ r, lr_ticker r = k')
    (flat_map (λ c, zip_with (λ day v, {| lr_date := day; lr_ticker := fst c; lr_close := v |})
                             idx (snd c)) cols) = [].
Proof.
  induction cols as [|c cols IH]; intros Hnin; [done|].
  cbn [flat_map]. rewrite filter_app, filter_block, IH.
  - rewrite decide_False; [done|]. intros Heq. apply Hnin. rewrite <- Heq.
    apply list_elem_of_here.
  - intros Hin. apply Hnin. by apply list_elem_of_further.
Qed.

Lemma px_box_blocks (idx : list Date) (cols : list Column) :
  idx ≠ [] → NoDup (map fst cols) →
  Forall (λ c, length (snd c) = length idx) cols →
  let rows := flat_map (λ c, zip_with (λ day v, {| lr_date := day; lr_ticker := fst c;
                                                  lr_close := v |}) idx (snd c)) cols in
  map (λ k, Box k (map lr_ticker (filter (λ r, lr_ticker r = k) rows))
                  (map lr_close (filter (λ r, lr_ticker r = k) rows)))
      (uniques (map lr_ticker rows))
  = map (λ c, Box (fst c) (replicate (length idx) (fst c)) (snd c)) cols.
Proof.
  intros Hidx. cbv zeta.
  assert (Hn : length idx ≠ 0%nat) by by destruct idx.
  induction cols as [|c cols IH]; intros Hnd Hlen; [done|].
  apply NoDup_cons in Hnd as [Hnin Hnd]. apply Forall_cons in Hlen as [Hc Hlen].
  cbn [flat_map]. rewrite map_app, block_tickers by done.
  rewrite uniques_block; [|done|].
  2:{ intros (r & Hr & Hin)%list_elem_of_fmap.
      apply list_elem_of_In, in_flat_map in Hin as (c' & Hc' & Hin).
      apply list_elem_of_In in Hin.
      assert (Ht : lr_ticker r = fst c').
      { clear -Hin. revert Hin. generalize (snd c'). induction idx as [|d idx IHi];
          intros [|v cells] Hin; try by apply elem_of_nil in Hin.
        cbn [zip_with] in Hin. apply elem_of_cons in Hin as [->|Hin]; [done|].
        by eapply IHi. }
      apply Hnin. rewrite Hr, Ht. apply list_elem_of_fmap_2. by apply list_elem_of_In. }
  cbn [map]. f_equal.
  - rewrite filter_app, filter_block, decide_True by done.
    rewrite filter_rows_other by done. rewrite app_nil_r.
    by rewrite block_tickers, block_closes.
  - rewrite <- IH by done. apply map_ext_in. intros k Hk.
    assert (Hne : fst c ≠ k).
    { intros <-. apply Hnin. apply list_elem_of_In in Hk.
      apply elem_of_uniques in Hk.
      apply list_elem_of_fmap in Hk as (r & Hr & Hin).
      apply list_elem_of_In, in_flat_map in Hin as (c' & Hc' & Hin).
      apply list_elem_of_In in Hin.
      assert (Ht : lr_ticker r = fst c').
      { clear -Hin. revert Hin. generalize (snd c'). induction idx as [|d idx IHi];
          intros [|v cells] Hin; try by apply elem_of_nil in Hin.
        cbn [zip_with] in Hin. apply elem_of_cons in Hin as [->|Hin]; [done|].
        by eapply IHi. }
      rewrite Hr, Ht. apply list_elem_of_fmap_2. by apply list_elem_of_In. }
    by rewrite filter_app, filter_block, decide_False.
Qed.

Lemma index_nonempty data :
  data ≠ [] → (∀ r, r ∈ values data → history r ≠ []) →
  index (concat_close data) ≠ [].
Proof.
  intros Hne Hhist. destruct data as [|[k0 r0] data]; [done|].
  assert (Hr0 : history r0 ≠ []) by (apply Hhist, list_elem_of_here).
  destruct (history r0) as [|row0 h0] eqn:Hh0; [done|].
  unfold concat_close. cbn [values map snd]. rewrite Hh0.
  set (indexes := close_index (row0 :: h0) :: map _ _).
  destruct (forallb _ indexes); cbn [index]; [done|].
  intros Hnil.
  assert (Hin : date row0 ∈ merge_sort Z.le (remove_dups (concat indexes))).
  { rewrite merge_sort_Permutation, elem_of_remove_dups. unfold indexes.
    cbn [concat close_index map]. apply list_elem_of_here. }
  rewrite Hnil in Hin. by apply elem_of_nil in Hin.
Qed.

(** The boxes of line 60 on the long form of the table of a dataset. *)
Lemma px_box_columns data title :
  data ≠ [] → NoDup (keys data) → (∀ r, r ∈ values data → history r ≠ []) →
  fig_data (px_box (melt (concat_close data)) title)
  = map (λ col, Box (fst col)
                    (replicate (length (index (concat_close data))) (fst col))
                    (snd col))
        (columns (concat_close data)).
Proof.
  intros Hne Hnd Hhist. unfold px_box, melt. cbn [fig_data].
  apply (px_box_blocks (index (concat_close data)) (columns (concat_close data))).
  - by apply index_nonempty.
  - by rewrite concat_close_names.
  - apply concat_close_lengths.
Qed.

(** ** The order of the charts *)

Lemma append_cons c (s r : string) : String c s +:+ r = String c (s +:+ r).
Proof. reflexivity. Qed.

Lemma append_assoc (a b c : string) : (a +:+ b) +:+ c = a +:+ (b +:+ c).
Proof.
  induction a as [|x a IH]; [reflexivity|]. rewrite !append_cons. by rewrite IH.
Qed.

Lemma append_nil_r (s : string) : s +:+ EmptyString = s.
Proof. induction s as [|c s IH]; [reflexivity|]. by rewrite append_cons, IH. Qed.

Lemma combined_html_run figures : ∀ w,
  combined_html figures w =
    (Ret (join (map chart_container
                  (zip_with plotly_markup figures
                     (fst (draw_ids (length figures) (outside w)))))),
     after w (snd (draw_ids (length figures) (outside w)))
           (map EvUuid (fst (draw_ids (length figures) (outside w))))).
Proof.
  induction figures as [|fig figures IH]; intros w.
  - simpl. by rewrite after_same.
  - cbn [combined_html length draw_ids]. unfold mbind, M_bind, to_html.
    destruct (uuid4 (outside w)) as [id o1]. rewrite IH. cbn [outside].
    destruct (draw_ids (length figures) o1) as [ids o2]. simpl.
    unfold after. simpl. by rewrite <- app_assoc.
Qed.

Lemma dashboard_document_run figures group_name time_period w :
  dashboard_document figures group_name time_period w =
    (Ret (full_html group_name time_period
            (join (map chart_container
                     (zip_with plotly_markup figures
                        (fst (draw_ids (length figures) (outside w))))))),
     after w (snd (draw_ids (length figures) (outside w)))
           (map EvUuid (fst (draw_ids (length figures) (outside w))))).
Proof.
  unfold dashboard_document, mbind, M_bind. by rewrite combined_html_run.
Qed.

Lemma numbers_or_row (vs : list value) :
  (∀ xs, Series xs ∉ vs) → ∃ ys, vs = map Cell ys.
Proof.
  induction vs as [|[x|xs] vs IH]; intros Hno.
  - by exists [].
  - destruct IH as [ys ->].
    + intros xs Hin. apply (Hno xs). by apply list_elem_of_further.
    + by exists (x :: ys).
  - exfalso. apply (Hno xs). apply list_elem_of_here.
Qed.

Lemma revenue_figure_numbers data :
  (∀ k xs, (k, Series xs) ∉ revenues data) →
  ∃ f3, revenue_figure plotly_bar_of_rows data = inr f3.
Proof.
  intros Hno. unfold revenue_figure.
  destruct (numbers_or_row (values (revenues data))) as [ys Hys].
  { intros xs (kv & Hkv & Hin)%list_elem_of_fmap. apply (Hno (fst kv) xs).
    rewrite Hkv. by destruct kv. }
  destruct (revenues data) as [|kv revs]; cbn [truthy]; [by eexists|].
  rewrite Hys, cells_numbers. by eexists.
Qed.

(** C6, amended. Take a non-empty dataset line 55 goes through with: no
    symbol is named Date, and none Close where pandas refuses that. The
    builder then ends as the making of the revenue chart does: with its
    exception, or with four figures of which that chart is the third. The
    first is the price trend: titled after the group, one line per symbol in
    the order of the dataset, each over the dates of the table and with the
    cells of its column. The second is the price distribution: for symbols
    with a non-empty history each, one box per symbol in the same order,
    holding the cells of its column. The fourth is the average returns: one
    series of bars, the symbols and their means of the daily change as
    [sort_values] orders them. The revenue chart is made whenever no revenue
    is a row: the placeholder when there is no revenue, a bar per revenue
    otherwise. And the page made from four figures holds, between two texts
    that do not depend on them, their containers one after the other in the
    order of the list, each with the identifier drawn for it. *)
Theorem chart_set_order data group_name time_period w :
  data ≠ [] →
  "Date" ∉ keys data → (pandas_melt_strict = true → "Close" ∉ keys data) →
  let t := concat_close data in
  let returns :=
    pd_sort_values
      (map (λ c, (fst c, pd_mean (pct_change pandas_pads (snd c)))) (columns t)) in
  (∃ f1 f2 f4,
     create_interactive_plotly_dashboard data group_name time_period w =
       (match revenue_figure plotly_bar_of_rows data with
        | inl e => Raise e
        | inr f3 => Ret [f1; f2; f3; f4]
        end,
        after w (outside w) [EvBuild group_name]) ∧
     fig_title f1 = "📈 Price Trend Over Time (" +:+ group_name +:+ ")" ∧
     fig_data f1 = map (λ c, Scatter (fst c) (index t) (snd c)) (columns t) ∧
     omap trace_name (fig_data f1) = keys data ∧
     fig_title f2 = "📦 Stock Price Distribution" ∧
     (NoDup (keys data) → (∀ r, r ∈ values data → history r ≠ []) →
        fig_data f2 =
          map (λ c, Box (fst c) (replicate (length (index t)) (fst c)) (snd c))
              (columns t) ∧
        omap trace_name (fig_data f2) = keys data) ∧
     fig_title f4 = "📉 Average Daily Returns" ∧
     fig_data f4 = [Bar (map fst returns) (map snd returns)]) ∧
  ((∀ k xs, (k, Series xs) ∉ revenues data) →
     ∃ f3, revenue_figure plotly_bar_of_rows data = inr f3 ∧
           fig_title f3 = "💰 Latest Reported Revenue" ∧
           (revenues data = [] →
              fig_data f3 = [] ∧
              ∃ a, fig_annotations f3 = [a] ∧ text a = "No Revenue Data Available") ∧
           (revenues data ≠ [] →
              ∃ ys, values (revenues data) = map Cell ys ∧
                    fig_data f3 = [Bar (keys (revenues data)) ys])) ∧
  (∃ pre post, ∀ combined,
     full_html group_name time_period combined = pre +:+ combined +:+ post) ∧
  (∀ g1 g2 g3 g4 w', ∃ id1 id2 id3 id4 o',
     draw_ids 4 (outside w') = ([id1; id2; id3; id4], o') ∧
     dashboard_document [g1; g2; g3; g4] group_name time_period w' =
       (Ret (full_html group_name time_period
               ("<div class=" +:+ dquote +:+ "chart-container" +:+ dquote +:+ ">" +:+
                  plotly_markup g1 id1 +:+ "</div>" +:+
                "<div class=" +:+ dquote +:+ "chart-container" +:+ dquote +:+ ">" +:+
                  plotly_markup g2 id2 +:+ "</div>" +:+
                "<div class=" +:+ dquote +:+ "chart-container" +:+ dquote +:+ ">" +:+
                  plotly_markup g3 id3 +:+ "</div>" +:+
                "<div class=" +:+ dquote +:+ "chart-container" +:+ dquote +:+ ">" +:+
                  plotly_markup g4 id4 +:+ "</div>")),
        after w' o' [EvUuid id1; EvUuid id2; EvUuid id3; EvUuid id4])).
Proof.
  intros Hne Hdate Hclose t returns. split; [|split; [|split]].
  - eexists _, _, _. split; [by apply create_dashboard_run|].
    split; [done|]. split; [done|].
    split; [cbn [px_line fig_data]; by rewrite line_names, concat_close_names|].
    split; [done|]. split; [|done].
    intros Hnd Hhist. rewrite px_box_columns by done.
    split; [done|]. by rewrite box_names, concat_close_names.
  - intros Hno. unfold revenue_figure.
    destruct (numbers_or_row (values (revenues data))) as [ys Hys].
    { intros xs (kv & Hkv & Hin)%list_elem_of_fmap. apply (Hno (fst kv) xs).
      rewrite Hkv. by destruct kv. }
    destruct (revenues data) as [|kv revs] eqn:Hrevs; cbn [truthy].
    + eexists. split; [reflexivity|]. split; [done|]. split; [|done].
      intros _. split; [done|]. by eexists.
    + rewrite Hys, cells_numbers. eexists. split; [reflexivity|]. split; [done|].
      split; [done|]. intros _. by exists ys.
  - eexists (nl +:+ "    <html>" +:+ nl +:+ "    <head>" +:+ nl +:+
             "        <title>" +:+ group_name +:+ " Analysis (" +:+ time_period +:+
             ")</title>" +:+ nl +:+ "        " +:+ styles +:+ nl +:+
             "    </head>" +:+ nl +:+ "    <body>" +:+ nl +:+
             "        <h1>" +:+ group_name +:+ " Interactive Financial Dashboard (" +:+
             time_period +:+ ")</h1>" +:+ nl +:+ "        "), _.
    intros combined. unfold full_html. rewrite !append_assoc. reflexivity.
  - intros g1 g2 g3 g4 w'. rewrite dashboard_document_run. cbn [length draw_ids].
    destruct (uuid4 (outside w')) as [id1 o1]. destruct (uuid4 o1) as [id2 o2].
    destruct (uuid4 o2) as [id3 o3]. destruct (uuid4 o3) as [id4 o4].
    exists id1, id2, id3, id4, o4. split; [done|].
    cbn [fst snd zip_with map join fold_right]. unfold chart_container.
    by rewrite !append_assoc, append_nil_r.
Qed.

(** ** The publisher *)


(** ** The driver *)

Lemma fetch_ticker_events period d t w :
  ∃ d' o' evs,
    fetch_ticker period d t w = (Ret d', after w o' evs) ∧ Forall fetch_event evs.
Proof.
  rewrite fetch_ticker_run. cbv zeta.
  destruct (yf_history t period (outside w)) as [[e|h] o1].
  - eexists _, _, _. split; [reflexivity|]. by repeat constructor.
  - destruct (hist_empty h).
    + eexists _, _, _. split; [reflexivity|]. by repeat constructor.
    + destruct (yf_financials t o1) as [[e|fin] o2];
        (eexists _, _, _; split; [reflexivity|]; by repeat constructor).
Qed.

Lemma fetch_loop_events period tickers : ∀ d w,
  ∃ data o' evs,
    fetch_loop period d tickers w = (Ret data, after w o' evs) ∧ Forall fetch_event evs.
Proof.
  induction tickers as [|t rest IH]; intros d w.
  - exists d, (outside w), []. rewrite after_same. by split.
  - destruct (fetch_ticker_events period d t w) as (d' & o1 & evs1 & Hrun & Hev1).
    destruct (IH d' (after w o1 evs1)) as (data & o2 & evs2 & Hrun2 & Hev2).
    exists data, o2, (evs1 ++ evs2). split.
    + simpl. unfold mbind, M_bind. by rewrite Hrun, Hrun2, after_after.
    + by apply Forall_app.
Qed.

(** C7. When the fetch of a group returns the empty dictionary, the group is
    done with what the fetch did: the world is the one the fetch left, whose
    files are untouched and whose new events are all events of the fetch, so
    neither the builder nor the publisher was entered and nothing was
    uploaded or written. For the first group the script then carries on with
    the second. *)
Theorem empty_group_is_skipped cfg :
  (∀ group_name time_period w w',
     get_financial_data (tickers_of group_name) time_period w = (Ret [], w') →
     run_group cfg group_name time_period w = (Ret tt, w') ∧
     files w' = files w ∧
     ∃ evs, trace w' = trace w ++ evs ∧ Forall fetch_event evs) ∧
  (∀ w w',
     get_financial_data (tickers_of "US Banks") "5y"
       (after w (outside w) [EvPrint "📊 Fetching financial data for US Banks..."])
       = (Ret [], w') →
     main cfg w =
       run_group cfg "US Banks in India" "5y"
         (after w' (outside w')
            [EvPrint "📊 Fetching financial data for US Banks in India..."])).
Proof.
  split.
  - intros g p w w' Hfetch. split.
    { unfold run_group, mbind, M_bind. by rewrite Hfetch. }
    destruct (fetch_loop_events p (tickers_of g) [] w) as (data & o & evs & Hrun & Hev).
    unfold get_financial_data in Hfetch. rewrite Hrun in Hfetch.
    injection Hfetch as _ <-. split; [done|]. by exists evs.
  - intros w w' Hfetch.
    unfold main. cbv zeta. unfold print, mbind, M_bind. rewrite emit_run.
    unfold run_group at 1. unfold mbind, M_bind. rewrite Hfetch.
    cbn [truthy mret M_ret]. by rewrite emit_run.
Qed.

(** C8. When the access key identifier or the access key secret is unset
    once [.env] is loaded, the script prints its diagnostic and exits with
    status 1, and that is all it does: no request, upload or write is among
    the events. When the region is unset it is us-east-1. *)
Theorem missing_credentials_exit environ dotenv w :
  let env := load_dotenv environ dotenv in
  (env !! "AWS_ACCESS_KEY_ID" = None ∨ env !! "AWS_SECRET_ACCESS_KEY" = None →
     script environ dotenv w =
       (Exit 1, after w (outside w)
                  [EvPrint "❌ AWS credentials missing. Check .env or environment variables."]) ∧
     exit_status (fst (script environ dotenv w)) ≠ 0%Z) ∧
  (env !! "AWS_DEFAULT_REGION" = None →
     AWS_DEFAULT_REGION (read_config env) = "us-east-1").
Proof.
  intros env. split.
  - intros Hmiss.
    assert (Hrun : script environ dotenv w =
      (Exit 1, after w (outside w)
         [EvPrint "❌ AWS credentials missing. Check .env or environment variables."])).
    { unfold script, startup, mbind, M_bind. fold env.
      replace (credentials_present (read_config env)) with false; [reflexivity|].
      unfold credentials_present, read_config, getenv. cbn [forallb AWS_ACCESS_KEY_ID
        AWS_SECRET_ACCESS_KEY].
      destruct Hmiss as [-> | ->]; [done|]. by rewrite andb_false_r. }
    split; [exact Hrun|]. by rewrite Hrun.
  - intros Hreg. unfold read_config, getenv_default. cbn [AWS_DEFAULT_REGION].
    by rewrite Hreg.
Qed.

(** ** Reproducibility *)

(** C9, amended. Two runs of the builder and the serialisation on the same
    dataset, group name and period label give the same outcome, byte for
    byte, whenever the four identifiers drawn for the divs of the charts are
    the same; nothing else of the world matters. *)
Theorem report_depends_on_ids data group_name time_period (w1 w2 : World Outside) :
  fst (draw_ids 4 (outside w1)) = fst (draw_ids 4 (outside w2)) →
  fst (report data group_name time_period w1) = fst (report data group_name time_period w2).
Proof.
  intros Hids. unfold report, mbind, M_bind.
  destruct (create_dashboard_pure data group_name time_period)
    as (r & Hexit & Hlen & Hrun).
  rewrite !Hrun. destruct r as [figs|e|n]; [|done|done].
  rewrite !dashboard_document_run. cbn [fst outside after].
  rewrite (Hlen figs eq_refl). by rewrite Hids.
Qed.

(** ** The title and the heading *)

Lemma compatible_app pat : ∀ s rest,
  compatible pat (s +:+ rest) = true → compatible pat s = true.
Proof.
  induction pat as [|a pat IH]; intros s rest; [done|].
  destruct s as [|b s]; [done|]. rewrite append_cons. cbn [compatible].
  destruct (Ascii.eqb a b); [apply IH|done].
Qed.

Lemma prefix_compatible pat : ∀ s, String.prefix pat s = true → compatible pat s = true.
Proof.
  induction pat as [|a pat IH]; intros s; [done|].
  destruct s as [|b s]; [done|]. cbn [String.prefix compatible].
  destruct (ascii_dec a b) as [->|Hne]; [|done].
  rewrite Ascii.eqb_refl. apply IH.
Qed.

Lemma split_on_nil_l pat rest : split_on pat rest =
  if String.prefix pat rest then Some (EmptyString, drop_prefix pat rest)
  else match rest with
       | EmptyString => None
       | String c s' =>
           match split_on pat s' with
           | Some (before, r) => Some (String c before, r)
           | None => None
           end
       end.
Proof. by destruct rest. Qed.

(** A stretch of text in which no match can start is skipped. *)
Lemma split_on_clean pat s rest :
  clean pat s = true →
  split_on pat (s +:+ rest) =
    match split_on pat rest with
    | Some (before, r) => Some (s +:+ before, r)
    | None => None
    end.
Proof.
  induction s as [|c s IH]; intros Hc.
  - change (EmptyString +:+ rest) with rest. by destruct (split_on pat rest) as [[? ?]|].
  - cbn [clean] in Hc. apply andb_true_iff in Hc as [Hnc Hc].
    rewrite append_cons, split_on_nil_l.
    destruct (String.prefix pat (String c (s +:+ rest))) eqn:Hp.
    + apply prefix_compatible in Hp. rewrite <- append_cons in Hp.
      apply compatible_app in Hp. by rewrite Hp in Hnc.
    + rewrite IH by done. by destruct (split_on pat rest) as [[? ?]|].
Qed.

Lemma prefix_app pat rest : String.prefix pat (pat +:+ rest) = true.
Proof.
  induction pat as [|a pat IH]; [by destruct rest|].
  rewrite append_cons. cbn [String.prefix]. by destruct (ascii_dec a a).
Qed.

Lemma drop_prefix_app pat rest : drop_prefix pat (pat +:+ rest) = rest.
Proof.
  induction pat as [|a pat IH]; [by destruct rest|]. rewrite append_cons. apply IH.
Qed.

Lemma split_on_here pat rest : split_on pat (pat +:+ rest) = Some (EmptyString, rest).
Proof. by rewrite split_on_nil_l, prefix_app, drop_prefix_app. Qed.

Lemma no_lt_app a b : no_lt (a +:+ b) = no_lt a && no_lt b.
Proof.
  induction a as [|c a IH]; [reflexivity|]. rewrite append_cons. cbn [no_lt].
  by rewrite IH, andb_assoc.
Qed.

Lemma no_lt_clean pat s : no_lt s = true → clean (String "<" pat) s = true.
Proof.
  induction s as [|c s IH]; [done|]. cbn [no_lt clean compatible].
  intros [Hc Hs]%andb_true_iff. rewrite IH by done. rewrite andb_true_r.
  rewrite Ascii.eqb_sym. by destruct (Ascii.eqb c "<").
Qed.

Lemma full_html_shape group_name time_period combined :
  full_html group_name time_period combined =
    page_head +:+ "<title>" +:+ page_title group_name time_period +:+ "</title>" +:+
    page_mid +:+ "<h1>" +:+ heading group_name time_period +:+ "</h1>" +:+
    page_tail combined.
Proof.
  unfold full_html, page_head, page_mid, page_tail, page_title, heading.
  rewrite !append_assoc. reflexivity.
Qed.

Lemma no_lt_page_title g p :
  no_lt g = true → no_lt p = true → no_lt (page_title g p) = true.
Proof. intros Hg Hp. unfold page_title. by rewrite !no_lt_app, Hg, Hp. Qed.

Lemma no_lt_heading g p :
  no_lt g = true → no_lt p = true → no_lt (heading g p) = true.
Proof. intros Hg Hp. unfold heading. by rewrite !no_lt_app, Hg, Hp. Qed.

Lemma element_text_title g p combined :
  no_lt g = true → no_lt p = true →
  element_text "title" (full_html g p combined) = Some (page_title g p).
Proof.
  intros Hg Hp. unfold element_text.
  change ("<" +:+ "title" +:+ ">") with "<title>".
  change ("</" +:+ "title" +:+ ">") with "</title>".
  rewrite full_html_shape.
  rewrite (split_on_clean "<title>" page_head) by by vm_compute.
  rewrite split_on_here.
  rewrite (split_on_clean "</title>" (page_title g p))
    by by apply no_lt_clean, no_lt_page_title.
  rewrite split_on_here. by rewrite append_nil_r.
Qed.

Lemma element_text_h1 g p combined :
  no_lt g = true → no_lt p = true →
  element_text "h1" (full_html g p combined) = Some (heading g p).
Proof.
  intros Hg Hp. unfold element_text.
  change ("<" +:+ "h1" +:+ ">") with "<h1>".
  change ("</" +:+ "h1" +:+ ">") with "</h1>".
  rewrite full_html_shape.
  rewrite (split_on_clean "<h1>" page_head) by by vm_compute.
  rewrite (split_on_clean "<h1>" "<title>") by by vm_compute.
  rewrite (split_on_clean "<h1>" (page_title g p))
    by by apply no_lt_clean, no_lt_page_title.
  rewrite (split_on_clean "<h1>" "</title>") by by vm_compute.
  rewrite (split_on_clean "<h1>" page_mid) by by vm_compute.
  rewrite split_on_here.
  rewrite (split_on_clean "</h1>" (heading g p))
    by by apply no_lt_clean, no_lt_heading.
  by rewrite split_on_here, append_nil_r.
Qed.

(** C1, amended. The page is laid out as: head, a title element holding
    [page_title], that is the group name followed by Analysis and the period
    label, then styles and the opening of the body, a first-level heading
    holding [heading], and the charts. When neither the group name nor the
    period label contains the character that opens a tag, the text of the
    title element is [page_title] and the text of the heading is
    [heading]. *)
Theorem page_title_and_heading figures group_name time_period w :
  ∃ combined w',
    dashboard_document figures group_name time_period w =
      (Ret (full_html group_name time_period combined), w') ∧
    full_html group_name time_period combined =
      page_head +:+ "<title>" +:+ page_title group_name time_period +:+ "</title>" +:+
      page_mid +:+ "<h1>" +:+ heading group_name time_period +:+ "</h1>" +:+
      page_tail combined ∧
    (no_lt group_name = true → no_lt time_period = true →
       element_text "title" (full_html group_name time_period combined)
         = Some (page_title group_name time_period) ∧
       element_text "h1" (full_html group_name time_period combined)
         = Some (heading group_name time_period)).
Proof.
  eexists _, _. split; [apply dashboard_document_run|].
  split; [apply full_html_shape|]. intros Hg Hp.
  split; [by apply element_text_title|by apply element_text_h1].
Qed.

(** ** Further properties of the fetcher *)

(** X1. Once [.env] is loaded, credentials that are both set and not empty
    let the script through to [main] with the configuration read from the
    environment; a credential set to the empty string stops it like a missing
    one, with the diagnostic and status 1. *)
Theorem startup_checks_truthiness environ dotenv w :
  let env := load_dotenv environ dotenv in
  (truthy_env (env !! "AWS_ACCESS_KEY_ID") = true →
   truthy_env (env !! "AWS_SECRET_ACCESS_KEY") = true →
   script environ dotenv w = main (read_config env) w) ∧
  (env !! "AWS_ACCESS_KEY_ID" = Some EmptyString ∨
   env !! "AWS_SECRET_ACCESS_KEY" = Some EmptyString →
   script environ dotenv w =
     (Exit 1, after w (outside w)
                [EvPrint "❌ AWS credentials missing. Check .env or environment variables."])).
Proof.
  intros env. split.
  - intros Hid Hsec. unfold script, startup, mbind, M_bind. fold env.
    replace (credentials_present (read_config env)) with true; [reflexivity|].
    unfold credentials_present, read_config, getenv.
    cbn [forallb AWS_ACCESS_KEY_ID AWS_SECRET_ACCESS_KEY]. by rewrite Hid, Hsec.
  - intros Hempty. unfold script, startup, mbind, M_bind. fold env.
    replace (credentials_present (read_config env)) with false; [reflexivity|].
    unfold credentials_present, read_config, getenv.
    cbn [forallb AWS_ACCESS_KEY_ID AWS_SECRET_ACCESS_KEY].
    destruct Hempty as [-> | ->]; [done|]. by rewrite andb_false_r.
Qed.

(** X2. The fetcher only prints and asks the market data service: it returns
    normally, leaves the local files alone, and none of its events is an
    upload, a local write or the drawing of an identifier. *)
Theorem fetch_only_asks (tickers : list string) period w :
  ∃ data w' evs,
    get_financial_data tickers period w = (Ret data, w') ∧
    files w' = files w ∧
    trace w' = trace w ++ evs ∧
    Forall fetch_event evs ∧
    upload_attempts evs = [] ∧
    Forall (λ ev, ¬ disk_event ev) evs.
Proof.
  destruct (fetch_loop_events period tickers [] w) as (data & o & evs & Hrun & Hev).
  exists data, (after w o evs), evs. split; [exact Hrun|].
  split; [reflexivity|]. split; [reflexivity|]. split; [exact Hev|]. split.
  - clear Hrun. induction Hev as [|ev evs Hev _ IH]; [done|].
    destruct ev; try done; exact IH.
  - eapply Forall_impl; [exact Hev|]. intros ev Hf Hd. by destruct ev.
Qed.

Lemma keys_dict_set_order {V} (d : dict V) k v :
  keys (dict_set d k v) = set_key (keys d) k.
Proof.
  unfold set_key. induction d as [|[k0 v0] d IH].
  - cbn [dict_set keys map fst].
    by rewrite bool_decide_eq_false_2 by apply not_elem_of_nil.
  - cbn [dict_set]. destruct (String.eqb_spec k0 k) as [->|Hne].
    + cbn [keys map fst].
      by rewrite bool_decide_eq_true_2 by apply list_elem_of_here.
    + change (keys ((k0, v0) :: dict_set d k v)) with (k0 :: keys (dict_set d k v)).
      change (keys ((k0, v0) :: d)) with (k0 :: keys d). rewrite IH.
      destruct (decide (k ∈ keys d)) as [Hin|Hnin].
      * rewrite (bool_decide_eq_true_2 (k ∈ keys d)) by done.
        by rewrite bool_decide_eq_true_2 by by apply list_elem_of_further.
      * rewrite (bool_decide_eq_false_2 (k ∈ keys d)) by done.
        rewrite bool_decide_eq_false_2; [done|].
        rewrite elem_of_cons. intros [->|?]; done.
Qed.

Lemma fetch_ticker_keys period d t w :
  ∃ d' o' evs,
    fetch_ticker period d t w = (Ret d', after w o' evs) ∧
    keys d' = foldl set_key (keys d) (arrivals evs).
Proof.
  rewrite fetch_ticker_run. cbv zeta.
  destruct (yf_history t period (outside w)) as [[e|h] o1].
  - by eexists _, _, _.
  - destruct (hist_empty h) eqn:Hemp.
    + eexists _, _, _. split; [reflexivity|]. unfold arrivals. simpl. by rewrite Hemp.
    + destruct (yf_financials t o1) as [[e|fin] o2];
        (eexists _, _, _; split; [reflexivity|]; unfold arrivals; simpl;
         rewrite Hemp; simpl; apply keys_dict_set_order).
Qed.

Lemma fetch_loop_keys period tickers : ∀ d w,
  ∃ data o' evs,
    fetch_loop period d tickers w = (Ret data, after w o' evs) ∧
    keys data = foldl set_key (keys d) (arrivals evs).
Proof.
  induction tickers as [|t rest IH]; intros d w.
  - exists d, (outside w), []. rewrite after_same. by split.
  - destruct (fetch_ticker_keys period d t w) as (d' & o1 & evs1 & Hrun & Hk1).
    destruct (IH d' (after w o1 evs1)) as (data & o2 & evs2 & Hrun2 & Hk2).
    exists data, o2, (evs1 ++ evs2). split.
    + simpl. unfold mbind, M_bind. by rewrite Hrun, Hrun2, after_after.
    + unfold arrivals in *. by rewrite omap_app, foldl_app, <- Hk1.
Qed.

(** X3. The symbols of the dataset stand in the order in which a non-empty
    history first arrived for them: a symbol fetched again keeps its place,
    a new one goes last. This is the order of the columns and of the bars. *)
Theorem fetch_keeps_arrival_order (tickers : list string) period w :
  ∃ data w' evs,
    get_financial_data tickers period w = (Ret data, w') ∧
    trace w' = trace w ++ evs ∧
    keys data = foldl set_key [] (arrivals evs).
Proof.
  destruct (fetch_loop_keys period tickers [] w) as (data & o & evs & Hrun & Hk).
  by exists data, (after w o evs), evs.
Qed.

Lemma arrival_requested period t h evs :
  Exists (arrival period t h) evs → t ∈ history_requests evs.
Proof.
  intros (ev & Hin & _ & ->)%Exists_exists. unfold history_requests.
  apply list_elem_of_omap. by eexists.
Qed.

(** X4. The fetcher makes up no symbol and counts none twice: every key of
    the dataset is one of the tickers asked for, and the dataset has at most
    as many entries as there are tickers. *)
Theorem fetch_within_tickers (tickers : list string) period w :
  ∃ data w',
    get_financial_data tickers period w = (Ret data, w') ∧
    (∀ t, t ∈ keys data → t ∈ tickers) ∧
    (length data ≤ length tickers)%nat.
Proof.
  destruct (fetch_loop_post period tickers [] w)
    as (data & o & evs & Hrun & Hreq & Hnd & Hkeys & _).
  assert (Hsub : ∀ t, t ∈ keys data → t ∈ tickers).
  { intros t [Hin|[h Hex]]%Hkeys; [by apply elem_of_nil in Hin|].
    rewrite <- Hreq. by eapply arrival_requested. }
  exists data, (after w o evs). split; [exact Hrun|]. split; [exact Hsub|].
  rewrite <- (length_map fst data). change (map fst data) with (keys data).
  apply submseteq_length, NoDup_submseteq; [apply Hnd, NoDup_nil_2|exact Hsub].
Qed.

Lemma rows_labelled_app (a b : Financials) label :
  rows_labelled (a ++ b) label = rows_labelled a label ++ rows_labelled b label.
Proof. unfold rows_labelled. by rewrite List.filter_app, map_app. Qed.

Lemma rows_labelled_none (fin : Financials) label :
  (∀ row, row ∈ fin → fst row ≠ label) → rows_labelled fin label = [].
Proof.
  induction fin as [|row fin IH]; intros Hno; [done|].
  unfold rows_labelled. cbn [List.filter].
  destruct (String.eqb_spec (fst row) label) as [Heq|_].
  - exfalso. by apply (Hno row); [apply list_elem_of_here|].
  - apply IH. intros row' Hin. apply Hno. by apply list_elem_of_further.
Qed.

Lemma rows_labelled_some (fin : Financials) label :
  (∃ row, row ∈ fin ∧ fst row = label) → rows_labelled fin label ≠ [].
Proof.
  intros (row & Hin & Hrow). unfold rows_labelled. intros Hnil.
  apply fmap_nil_inv in Hnil.
  assert (Hf : In row (List.filter (λ r, String.eqb (fst r) label) fin)).
  { apply List.filter_In. split; [by apply list_elem_of_In|]. by apply String.eqb_eq. }
  rewrite Hnil in Hf. destruct Hf.
Qed.

(** X5. The revenue read from the statements, by the rows labelled Total
    Revenue: nothing when there is none; nothing when the first of them is
    empty; the first cell of the row when there is one such row; the whole
    first row when there are several. *)
Theorem total_revenue_first_cell (pre post : Financials) (v : float) (vs : list float) :
  (∀ row, row ∈ pre → fst row ≠ "Total Revenue") →
  total_revenue pre = None ∧
  total_revenue (pre ++ ("Total Revenue", []) :: post) = None ∧
  ((∀ row, row ∈ post → fst row ≠ "Total Revenue") →
     total_revenue (pre ++ ("Total Revenue", v :: vs) :: post) = Some (Cell v)) ∧
  ((∃ row, row ∈ post ∧ fst row = "Total Revenue") →
     total_revenue (pre ++ ("Total Revenue", v :: vs) :: post)
       = Some (Series (v :: vs))).
Proof.
  intros Hpre. unfold total_revenue.
  assert (Hsplit : ∀ row,
            rows_labelled (pre ++ ("Total Revenue", row) :: post) "Total Revenue"
            = row :: rows_labelled post "Total Revenue").
  { intros row. rewrite rows_labelled_app, rows_labelled_none by done.
    unfold rows_labelled. cbn [List.filter fst]. by rewrite String.eqb_refl. }
  split; [by rewrite rows_labelled_none|]. rewrite !Hsplit. split; [|split].
  - by destruct (rows_labelled post "Total Revenue").
  - intros Hpost. by rewrite rows_labelled_none.
  - intros Hpost%rows_labelled_some.
    by destruct (rows_labelled post "Total Revenue").
Qed.

(** ** Further properties of the report builder *)

(** X6. The builder raises on the empty dataset, on a dataset with a symbol
    named Date and, where pandas refuses a value name that is a column, on a
    dataset with a symbol named Close: what [pd.concat], [reset_index] and
    [melt] raise there, no figure being returned. *)
Theorem builder_raises data group_name time_period w :
  (data = [] →
     create_interactive_plotly_dashboard data group_name time_period w =
       (Raise (Exception "No objects to concatenate"),
        after w (outside w) [EvBuild group_name])) ∧
  (data ≠ [] → "Date" ∈ keys data →
     create_interactive_plotly_dashboard data group_name time_period w =
       (Raise (Exception "cannot insert Date, already exists"),
        after w (outside w) [EvBuild group_name])) ∧
  (data ≠ [] → "Date" ∉ keys data → pandas_melt_strict = true → "Close" ∈ keys data →
     create_interactive_plotly_dashboard data group_name time_period w =
       (Raise (Exception
                 "value_name (Close) cannot match an element in the DataFrame columns."),
        after w (outside w) [EvBuild group_name])).
Proof.
  unfold create_interactive_plotly_dashboard, mbind, M_bind. rewrite emit_run.
  split; [by intros ->|]. split.
  - intros Hne Hdate. destruct data as [|kv data]; [done|].
    cbn [closing_prices_of mret M_ret]. unfold reset_index_melt.
    rewrite concat_close_names. by rewrite bool_decide_eq_true_2.
  - intros Hne Hdate Hstrict Hclose. destruct data as [|kv data]; [done|].
    cbn [closing_prices_of mret M_ret]. unfold reset_index_melt.
    rewrite concat_close_names, Hstrict.
    rewrite bool_decide_eq_false_2 by done. by rewrite bool_decide_eq_true_2.
Qed.

(** X7. The table of closing prices has one column per symbol of the
    dataset, named after it and in the order of the dataset, and every column
    has one cell per date of the index, whether the histories cover the same
    days or not. *)
Theorem closing_table_shape data :
  map fst (columns (concat_close data)) = keys data ∧
  Forall (λ col, length (snd col) = length (index (concat_close data)))
         (columns (concat_close data)).
Proof.
  unfold concat_close.
  destruct (map (λ r, close_index (history r)) (values data)) as [|i0 indexes] eqn:Hidx.
  - destruct data; [by split|discriminate].
  - destruct (forallb (same_index i0) (i0 :: indexes)) eqn:Hall; cbn [columns index].
    + split; [by rewrite map_map|].
      apply Forall_forall. intros col (kv & -> & Hin)%list_elem_of_fmap. cbn [snd].
      unfold close_values. rewrite length_map.
      rewrite <- (forallb_same_index _ _ Hall (close_index (history (snd kv)))).
      * unfold close_index. by rewrite length_map.
      * rewrite <- Hidx. apply list_elem_of_fmap. exists (snd kv). split; [done|].
        by apply list_elem_of_fmap_2.
    + split; [by rewrite map_map|].
      apply Forall_forall. intros col (kv & -> & Hin)%list_elem_of_fmap. cbn [snd].
      by rewrite length_map.
Qed.

(** X11. The bars of the revenue chart follow the order of the dataset: the
    symbols with a revenue are the symbols of the dataset with some left
    out, none moved. *)
Theorem revenue_bars_in_order data : sublist (keys (revenues data)) (keys data).
Proof.
  induction data as [|[k r] data IH]; [constructor|]. cbn [revenues keys map fst].
  destruct (revenue r); cbn [keys map fst]; by constructor.
Qed.

(** ** Further properties of the publisher and the driver *)

(** The publisher, case by case on what S3 and the disk answer. *)
Lemma save_run cfg figures group_name time_period w :
  save_plotly_figures_as_html cfg figures group_name time_period w =
    let ids := fst (draw_ids (length figures) (outside w)) in
    let o1 := snd (draw_ids (length figures) (outside w)) in
    let doc := full_html group_name time_period
                 (join (map chart_container (zip_with plotly_markup figures ids))) in
    let buffer := encode_utf8 doc in
    let filename := dashboard_filename group_name time_period in
    let bucket := AWS_BUCKET_NAME cfg in
    let pre := EvPublish group_name :: map EvUuid ids in
    let '(up, o2) := s3_upload cfg bucket filename buffer "text/html" o1 in
    let ev_up := EvUpload bucket filename buffer "text/html" up in
    match up with
    | None =>
        (Ret tt,
         after w o2
           (pre ++ [ev_up;
                    EvPrint ("✅ Dashboard uploaded to S3: s3://" +:+ fmt_option bucket
                             +:+ "/" +:+ filename)]))
    | Some e =>
        let ev_fail := EvPrint ("❌ Upload failed: " +:+ str_exn e) in
        let '(op, o3) := os_open_wb filename o2 in
        match op with
        | Some e1 => (Raise e1, after w o3 (pre ++ [ev_up; ev_fail; EvOpen filename op]))
        | None =>
            let '(wr, o4) := os_write filename buffer o3 in
            let evs := pre ++ [ev_up; ev_fail; EvOpen filename op;
                               EvWrite filename buffer wr] in
            match wr with
            | Some e2 =>
                (Raise e2,
                 {| outside := o4; files := <[filename := []]> (files w);
                    trace := trace w ++ evs |})
            | None =>
                (Ret tt,
                 {| outside := o4; files := <[filename := buffer]> (files w);
                    trace := trace w ++ evs
                             ++ [EvPrint ("✅ Saved locally as " +:+ filename)] |})
            end
        end
    end.
Proof.
  cbv zeta.
  unfold save_plotly_figures_as_html, mbind, M_bind.
  rewrite emit_run, dashboard_document_run. cbn [outside after].
  unfold try_catch, upload, write_file, set_file, perform, print, emit, mbind, M_bind,
    after. cbn [outside files trace].
  destruct (s3_upload _ _ _ _ _ _) as [[e|] o2]; cbn [outside files trace].
  - destruct (os_open_wb _ o2) as [[e1|] o3]; cbn [outside files trace].
    + by rewrite <- !app_assoc.
    + destruct (os_write _ _ o3) as [[e2|] o4]; cbn [outside files trace].
      * by rewrite <- !app_assoc.
      * by rewrite insert_insert_eq, <- !app_assoc.
  - by rewrite <- !app_assoc.
Qed.

Lemma upload_attempts_uuids ids : upload_attempts (map EvUuid ids) = [].
Proof. by induction ids. Qed.

Lemma history_requests_uuids ids : history_requests (map EvUuid ids) = [].
Proof. by induction ids. Qed.

Lemma upload_attempts_app (a b : list Event) :
  upload_attempts (a ++ b) = upload_attempts a ++ upload_attempts b.
Proof. apply omap_app. Qed.

Lemma history_requests_app (a b : list Event) :
  history_requests (a ++ b) = history_requests a ++ history_requests b.
Proof. apply omap_app. Qed.

Lemma upload_attempts_pre g ids :
  upload_attempts (EvPublish g :: map EvUuid ids) = [].
Proof. apply upload_attempts_uuids. Qed.

Lemma history_requests_pre g ids :
  history_requests (EvPublish g :: map EvUuid ids) = [].
Proof. apply history_requests_uuids. Qed.

Lemma no_disk_event_uuids ids : Forall (λ ev, ¬ disk_event ev) (map EvUuid ids).
Proof. induction ids; constructor; [by intros []|done]. Qed.

(** X12. When the upload goes through, the publisher is done: it returns
    normally, reports where the page went, and neither opens nor writes a
    local file. *)
Theorem upload_success_writes_nothing cfg figures group_name time_period w doc w1 o2 :
  let filename := dashboard_filename group_name time_period in
  let buffer := encode_utf8 doc in
  dashboard_document figures group_name time_period
    (after w (outside w) [EvPublish group_name]) = (Ret doc, w1) →
  s3_upload cfg (AWS_BUCKET_NAME cfg) filename buffer "text/html" (outside w1)
    = (None, o2) →
  ∃ w' evs,
    save_plotly_figures_as_html cfg figures group_name time_period w = (Ret tt, w') ∧
    files w' = files w ∧
    trace w' = trace w ++ evs ∧
    upload_attempts evs = [(filename, buffer)] ∧
    Forall (λ ev, ¬ disk_event ev) evs ∧
    EvPrint ("✅ Dashboard uploaded to S3: s3://" +:+ fmt_option (AWS_BUCKET_NAME cfg)
             +:+ "/" +:+ filename) ∈ evs.
Proof.
  intros filename buffer Hdoc Hup.
  rewrite dashboard_document_run in Hdoc. cbn [outside after] in Hdoc.
  injection Hdoc as Hd Hw. subst w1. cbn [outside after] in Hup.
  rewrite save_run. cbv zeta. fold filename. rewrite Hd. fold buffer. rewrite Hup.
  eexists _, _. split; [reflexivity|]. split; [reflexivity|].
  split; [reflexivity|]. split; [|split].
  - by rewrite upload_attempts_app, upload_attempts_pre.
  - apply Forall_app. split.
    + constructor; [by intros []|apply no_disk_event_uuids].
    + repeat constructor; by intros [].
  - rewrite elem_of_app, !elem_of_cons. auto.
Qed.

(** What every run of the publisher has in common. *)
Lemma save_summary cfg figures group_name time_period w :
  ∃ r w' evs,
    save_plotly_figures_as_html cfg figures group_name time_period w = (r, w') ∧
    trace w' = trace w ++ evs ∧
    upload_attempts evs
      = [(dashboard_filename group_name time_period,
          encode_utf8
            (full_html group_name time_period
               (join (map chart_container
                        (zip_with plotly_markup figures
                           (fst (draw_ids (length figures) (outside w))))))))] ∧
    history_requests evs = [] ∧
    (∀ n, r ≠ Exit n) ∧
    (∀ path, path ≠ dashboard_filename group_name time_period →
       files w' !! path = files w !! path).
Proof.
  rewrite save_run. cbv zeta.
  destruct (s3_upload _ _ _ _ _ _) as [[e|] o2].
  - destruct (os_open_wb _ o2) as [[e1|] o3].
    + eexists _, _, _. split; [reflexivity|]. split; [reflexivity|].
      split; [by rewrite upload_attempts_app, upload_attempts_pre|].
      split; [by rewrite history_requests_app, history_requests_pre|].
      split; done.
    + destruct (os_write _ _ o3) as [[e2|] o4].
      * eexists _, _, _. split; [reflexivity|]. split; [reflexivity|].
        split; [by rewrite upload_attempts_app, upload_attempts_pre|].
        split; [by rewrite history_requests_app, history_requests_pre|].
        split; [done|].
        intros path Hne. cbn [files]. by apply lookup_insert_ne.
      * eexists _, _, _. split; [reflexivity|]. split; [reflexivity|].
        split; [by rewrite !upload_attempts_app, upload_attempts_pre|].
        split; [by rewrite !history_requests_app, history_requests_pre|].
        split; [done|].
        intros path Hne. cbn [files]. by apply lookup_insert_ne.
  - eexists _, _, _. split; [reflexivity|]. split; [reflexivity|].
    split; [by rewrite upload_attempts_app, upload_attempts_pre|].
    split; [by rewrite history_requests_app, history_requests_pre|].
    split; done.
Qed.

(** X13. Let [doc] be the document made for a group. However S3 and the disk
    answer, the publisher hands the bytes of [doc] to S3 exactly once, under
    the name of the group, [_interactive_dashboard_], the period and
    [.html], and leaves every local file of another path as it was. *)
Theorem publisher_single_attempt cfg figures group_name time_period w doc w1 :
  let filename := group_name +:+ "_interactive_dashboard_" +:+ time_period +:+ ".html" in
  dashboard_document figures group_name time_period
    (after w (outside w) [EvPublish group_name]) = (Ret doc, w1) →
  ∃ r w' evs,
    save_plotly_figures_as_html cfg figures group_name time_period w = (r, w') ∧
    trace w' = trace w ++ evs ∧
    upload_attempts evs = [(filename, encode_utf8 doc)] ∧
    (∀ path, path ≠ filename → files w' !! path = files w !! path).
Proof.
  intros filename Hdoc.
  rewrite dashboard_document_run in Hdoc. cbn [outside after] in Hdoc.
  injection Hdoc as Hd _.
  destruct (save_summary cfg figures group_name time_period w)
    as (r & w' & evs & Hrun & Htr & Hup & _ & _ & Hfiles).
  exists r, w', evs. rewrite Hd in Hup. by repeat split.
Qed.

Lemma append_length (a b : string) :
  String.length (a +:+ b) = (String.length a + String.length b)%nat.
Proof. induction a as [|c a IH]; [done|]. rewrite append_cons. cbn. by rewrite IH. Qed.

Lemma append_inj_r (a b s : string) : a +:+ s = b +:+ s → a = b.
Proof.
  revert b. induction a as [|c a IH]; intros [|c' b] Heq.
  - done.
  - apply (f_equal String.length) in Heq. rewrite append_cons in Heq.
    cbn [String.length] in Heq. change (EmptyString +:+ s) with s in Heq.
    rewrite append_length in Heq. lia.
  - apply (f_equal String.length) in Heq. rewrite append_cons in Heq.
    cbn [String.length] in Heq. change (EmptyString +:+ s) with s in Heq.
    rewrite append_length in Heq. lia.
  - rewrite !append_cons in Heq. injection Heq as -> Heq. f_equal. by apply IH.
Qed.

(** X14. For one period, two different group names give two different file
    names, which are also the keys of the objects in the bucket. *)
Theorem dashboard_filename_distinct (g1 g2 time_period : string) :
  g1 ≠ g2 → dashboard_filename g1 time_period ≠ dashboard_filename g2 time_period.
Proof. intros Hne Heq. apply Hne. unfold dashboard_filename in Heq. by eapply append_inj_r. Qed.

(** What every run of a group has in common. *)
Lemma run_group_summary cfg group_name time_period w :
  ∃ r w' evs,
    run_group cfg group_name time_period w = (r, w') ∧
    trace w' = trace w ++ evs ∧
    history_requests evs = tickers_of group_name ∧
    (∀ n, r ≠ Exit n).
Proof.
  destruct (fetch_loop_post time_period (tickers_of group_name) [] w)
    as (data & o & evs1 & Hfetch & Hreq & _).
  unfold run_group, mbind, M_bind, get_financial_data. rewrite Hfetch.
  destruct data as [|kv data].
  - exists (Ret tt), (after w o evs1), evs1. by repeat split.
  - cbn [truthy].
    destruct (create_dashboard_pure (kv :: data) group_name time_period)
      as (rb & Hexitb & _ & Hbuild).
    rewrite Hbuild. destruct rb as [figs|e|n]; [| |by destruct (Hexitb n)].
    + match goal with |- context [save_plotly_figures_as_html cfg ?figs _ _ ?w2] =>
        destruct (save_summary cfg figs group_name time_period w2)
          as (r & w' & evs3 & Hrun & Htr & _ & Hreq3 & Hexit & _) end.
      exists r, w', (evs1 ++ [EvBuild group_name] ++ evs3).
      split; [exact Hrun|]. split.
      { rewrite Htr. cbn [trace after]. by rewrite <- !app_assoc. }
      split; [|exact Hexit].
      by rewrite !history_requests_app, Hreq, Hreq3, app_nil_r.
    + eexists (Raise e), _, (evs1 ++ [EvBuild group_name]).
      split; [reflexivity|]. split.
      { cbn [trace after]. by rewrite <- !app_assoc. }
      split; [|done].
      by rewrite !history_requests_app, Hreq, app_nil_r.
Qed.

(** What every run of [main] has in common. *)
Lemma main_summary cfg w :
  ∃ r w' evs,
    main cfg w = (r, w') ∧
    trace w' = trace w ++ evs ∧
    (∀ n, r ≠ Exit n) ∧
    (r = Ret tt →
       history_requests evs = tickers_of "US Banks" ++ tickers_of "US Banks in India") ∧
    (history_requests evs = tickers_of "US Banks" ++ tickers_of "US Banks in India" ∨
     (∃ e, r = Raise e) ∧ history_requests evs = tickers_of "US Banks").
Proof.
  unfold main. cbv zeta. unfold print, mbind, M_bind. rewrite emit_run.
  set (p1 := EvPrint "📊 Fetching financial data for US Banks...").
  set (p2 := EvPrint "📊 Fetching financial data for US Banks in India...").
  destruct (run_group_summary cfg "US Banks" "5y" (after w (outside w) [p1]))
    as (r1 & w1 & evs1 & Hrun1 & Htr1 & Hreq1 & Hexit1).
  rewrite Hrun1. cbn [trace after] in Htr1.
  destruct r1 as [[]|e1|n1].
  - rewrite emit_run.
    destruct (run_group_summary cfg "US Banks in India" "5y" (after w1 (outside w1) [p2]))
      as (r2 & w2 & evs2 & Hrun2 & Htr2 & Hreq2 & Hexit2).
    rewrite Hrun2. cbn [trace after] in Htr2.
    exists r2, w2, ([p1] ++ evs1 ++ [p2] ++ evs2).
    split; [by destruct r2|]. split.
    { rewrite Htr2, Htr1. by rewrite <- !app_assoc. }
    assert (Hreq : history_requests ([p1] ++ evs1 ++ [p2] ++ evs2)
                   = tickers_of "US Banks" ++ tickers_of "US Banks in India").
    { rewrite !history_requests_app, Hreq1, Hreq2. reflexivity. }
    split; [exact Hexit2|]. split; [done|]. by left.
  - exists (Raise e1), w1, ([p1] ++ evs1). split; [done|]. split.
    { rewrite Htr1. by rewrite <- !app_assoc. }
    split; [done|]. split; [done|]. right. split; [by eexists|].
    rewrite history_requests_app, Hreq1. reflexivity.
  - by destruct (Hexit1 n1).
Qed.

(** X17. [main] asks for the tickers of the first group and then for those of
    the second, every one of them afresh, a ticker of both groups twice. It
    stops short of the second group only when the first one ended with an
    exception. *)
Theorem main_requests_in_order cfg w :
  ∃ r w' evs,
    main cfg w = (r, w') ∧
    trace w' = trace w ++ evs ∧
    (r = Ret tt →
       history_requests evs = tickers_of "US Banks" ++ tickers_of "US Banks in India") ∧
    (history_requests evs = tickers_of "US Banks" ++ tickers_of "US Banks in India" ∨
     (∃ e, r = Raise e) ∧ history_requests evs = tickers_of "US Banks").
Proof.
  destruct (main_summary cfg w) as (r & w' & evs & Hrun & Htr & _ & Hret & Hreq).
  by exists r, w', evs.
Qed.

(** ** Further properties of the first two charts *)

(** X18. Take a non-empty dataset line 55 goes through with, no revenue of
    which is a row. The builder returns four figures, and the first, the
    price trend, has one line per symbol of the dataset, named after it and
    in the order of the dataset; every line runs over the dates of the table
    and has one value per date. *)
Theorem price_trend_lines data group_name time_period w :
  data ≠ [] →
  "Date" ∉ keys data → (pandas_melt_strict = true → "Close" ∉ keys data) →
  (∀ k xs, (k, Series xs) ∉ revenues data) →
  ∃ f1 f2 f3 f4,
    create_interactive_plotly_dashboard data group_name time_period w =
      (Ret [f1; f2; f3; f4], after w (outside w) [EvBuild group_name]) ∧
    omap trace_name (fig_data f1) = keys data ∧
    Forall (λ tr, ∃ name y,
              tr = Scatter name (index (concat_close data)) y ∧
              length y = length (index (concat_close data)))
           (fig_data f1).
Proof.
  intros Hne Hdate Hclose Hno. rewrite create_dashboard_run by done.
  destruct (revenue_figure_numbers data Hno) as [f3 ->].
  eexists _, _, _, _. split; [reflexivity|].
  cbn [px_line fig_data]. split; [by rewrite line_names, concat_close_names|].
  apply Forall_forall. intros tr (col & -> & Hin)%list_elem_of_fmap.
  pose proof (concat_close_lengths data) as Hlen. rewrite Forall_forall in Hlen.
  eexists _, _. split; [reflexivity|]. by apply Hlen.
Qed.

(** X19. Take a non-empty dataset line 55 goes through with, no revenue of
    which is a row, with distinct symbols and no empty history. The builder
    returns four figures, and the second, the price distribution, has one
    box per symbol, named after it and in the order of the dataset, and the
    box of a symbol holds the cells of its column of the table, one per
    date. *)
Theorem distribution_boxes data group_name time_period w :
  data ≠ [] →
  "Date" ∉ keys data → (pandas_melt_strict = true → "Close" ∉ keys data) →
  (∀ k xs, (k, Series xs) ∉ revenues data) →
  NoDup (keys data) → (∀ r, r ∈ values data → history r ≠ []) →
  ∃ f1 f2 f3 f4,
    create_interactive_plotly_dashboard data group_name time_period w =
      (Ret [f1; f2; f3; f4], after w (outside w) [EvBuild group_name]) ∧
    fig_data f2 =
      map (λ col, Box (fst col)
                      (replicate (length (index (concat_close data))) (fst col))
                      (snd col))
          (columns (concat_close data)) ∧
    omap trace_name (fig_data f2) = keys data.
Proof.
  intros Hne Hdate Hclose Hno Hnd Hhist. rewrite create_dashboard_run by done.
  destruct (revenue_figure_numbers data Hno) as [f3 ->].
  eexists _, _, _, _. split; [reflexivity|].
  rewrite px_box_columns by done. split; [done|].
  by rewrite box_names, concat_close_names.
Qed.


End Properties.

(** * The script in the small world *)

(** A run of the fetcher: C has no rows, GS is unknown to the service, WFC
    has prices but no statements, and JPM is asked for twice. *)
Example fetch_in_the_small_world :
  fst (get_financial_data (H := demo_externals) ["JPM"; "C"; "GS"; "WFC"; "JPM"] "5y"
         (demo_world 0 true true true))
  = Ret [ ("JPM", {| history := rising; revenue := Some (Cell 100%float) |});
          ("WFC", {| history := rising; revenue := None |}) ].
Proof. by vm_compute. Qed.

Example requests_in_the_small_world :
  history_requests
    (trace (snd (get_financial_data (H := demo_externals)
                   ["JPM"; "C"; "GS"; "WFC"; "JPM"] "5y" (demo_world 0 true true true))))
  = ["JPM"; "C"; "GS"; "WFC"; "JPM"].
Proof. by vm_compute. Qed.

(** A frame with two rows labelled Total Revenue leaves a row in [revenue]. *)
Example repeated_label_in_the_small_world :
  total_revenue [("Total Revenue", [100%float; 90%float]);
                 ("Total Revenue", [50%float; 40%float])]
  = Some (Series [100%float; 90%float]).
Proof. reflexivity. Qed.

(** C1 as stated fails: the title of the page made for the group US Banks
    is not the heading. *)
Lemma title_is_not_the_heading :
  ∃ figs w1 doc w2,
    create_interactive_plotly_dashboard (H := demo_externals) demo_data "US Banks" "5y"
      (demo_world 0 true true true) = (Ret figs, w1) ∧
    dashboard_document (H := demo_externals) figs "US Banks" "5y" w1 = (Ret doc, w2) ∧
    element_text "title" doc = Some "US Banks Analysis (5y)" ∧
    contains (heading "US Banks" "5y") "US Banks Analysis (5y)" = false ∧
    title_and_h1_contain (heading "US Banks" "5y") doc = false.
Proof.
  eexists _, _, _, _. split; [reflexivity|]. split; [reflexivity|].
  split; [by vm_compute|]. split; by vm_compute.
Qed.

(** Without any revenue the third figure is the placeholder. *)
Example placeholder_in_the_small_world :
  ∃ f1 f2 f4,
    fst (create_interactive_plotly_dashboard (H := demo_externals) demo_data_no_revenue
           "US Banks" "5y" (demo_world 0 true true true))
    = Ret [f1; f2; no_revenue_figure; f4].
Proof. eexists _, _, _. by vm_compute. Qed.

(** C9 as stated fails: the same dataset gives two different documents when
    the source of identifiers is in two different states, as it is from one
    run to the next. *)
Lemma report_differs_between_runs :
  fst (report (H := demo_externals) demo_data "US Banks" "5y" (demo_world 0 true true true))
  ≠ fst (report (H := demo_externals) demo_data "US Banks" "5y" (demo_world 4 true true true)).
Proof. vm_compute. intros Heq. discriminate Heq. Qed.

(** C5 as stated fails: for a non-empty dataset without any revenue in which
    a symbol is named Date, and for one in which a symbol is named Close, no
    placeholder is made; the builder raises at line 55. *)
Lemma no_revenue_chart_for_date_symbol :
  (date_data ≠ [] ∧
   (∀ r, r ∈ values date_data → revenue r = None) ∧
   create_interactive_plotly_dashboard (H := demo_externals) date_data "US Banks" "5y"
     (demo_world 0 true true true)
   = (Raise (Exception "cannot insert Date, already exists"),
      after (demo_world 0 true true true) (outside (demo_world 0 true true true))
            [EvBuild "US Banks"])) ∧
  (close_data ≠ [] ∧
   (∀ r, r ∈ values close_data → revenue r = None) ∧
   create_interactive_plotly_dashboard (H := demo_externals) close_data "US Banks" "5y"
     (demo_world 0 true true true)
   = (Raise (Exception
               "value_name (Close) cannot match an element in the DataFrame columns."),
      after (demo_world 0 true true true) (outside (demo_world 0 true true true))
            [EvBuild "US Banks"])).
Proof.
  split; (split; [discriminate|]; split; [|reflexivity]); intros r Hr.
  - unfold date_data, values in Hr. cbn [map snd] in Hr.
    apply elem_of_cons in Hr as [->|Hr]; [|apply list_elem_of_singleton in Hr as ->];
      reflexivity.
  - unfold close_data, values in Hr. cbn [map snd] in Hr.
    by apply list_elem_of_singleton in Hr as ->.
Qed.

(** C6 as stated fails: for these two non-empty datasets the builder returns
    no list of figures at all. *)
Lemma no_chart_set_for_date_symbol :
  date_data ≠ [] ∧ close_data ≠ [] ∧
  (∀ figs w',
     create_interactive_plotly_dashboard (H := demo_externals) date_data "US Banks" "5y"
       (demo_world 0 true true true) ≠ (Ret figs, w')) ∧
  (∀ figs w',
     create_interactive_plotly_dashboard (H := demo_externals) close_data "US Banks" "5y"
       (demo_world 0 true true true) ≠ (Ret figs, w')).
Proof.
  split; [discriminate|]. split; [discriminate|].
  split; intros figs w' Hrun; vm_compute in Hrun; discriminate Hrun.
Qed.


(** With one revenue, that of JPM, the third figure has one bar. *)
Lemma revenue_chart_witness :
  ∃ f1 f2 f3 f4,
    create_interactive_plotly_dashboard (H := demo_externals) demo_data
      "US Banks" "5y" (demo_world 0 true true true)
    = (Ret [f1; f2; f3; f4],
       after (demo_world 0 true true true) (outside (demo_world 0 true true true))
             [EvBuild "US Banks"]) ∧
    fig_data f3 = [Bar ["JPM"] [100%float]].
Proof.
  destruct (revenue_chart (H := demo_externals) demo_data "US Banks" "5y"
              (demo_world 0 true true true))
    as (_ & _ & _ & Hnum & _).
  - discriminate.
  - apply (bool_decide_unpack _). by vm_compute.
  - intros _. apply (bool_decide_unpack _). by vm_compute.
  - destruct (Hnum [100%float]) as (f1 & f2 & f3 & f4 & Hrun & Hdata & _).
    + discriminate.
    + reflexivity.
    + by exists f1, f2, f3, f4.
Defined.

(** In the small world the four figures are made, and the falling series
    comes first among the average returns. *)
Lemma chart_set_order_witness :
  ∃ f1 f2 f3 f4,
    create_interactive_plotly_dashboard (H := demo_externals) demo_data "US Banks" "5y"
      (demo_world 0 true true true)
    = (Ret [f1; f2; f3; f4],
       after (demo_world 0 true true true) (outside (demo_world 0 true true true))
             [EvBuild "US Banks"]) ∧
    omap trace_name (fig_data f1) = ["JPM"; "BAC"] ∧
    omap trace_name (fig_data f2) = ["JPM"; "BAC"] ∧
    fig_data f3 = [Bar ["JPM"] [100%float]] ∧
    ∃ ys, fig_data f4 = [Bar ["BAC"; "JPM"] ys].
Proof.
  destruct (chart_set_order (H := demo_externals) demo_data "US Banks" "5y"
              (demo_world 0 true true true))
    as ((f1 & f2 & f4 & Hrun & _ & _ & Hn1 & _ & Hbox & _ & Hd4) & _ & _ & _).
  - discriminate.
  - apply (bool_decide_unpack _). by vm_compute.
  - intros _. apply (bool_decide_unpack _). by vm_compute.
  - destruct Hbox as [_ Hn2].
    + apply (bool_decide_unpack _). by vm_compute.
    + intros r Hr. unfold demo_data, values in Hr. cbn [map snd] in Hr.
      apply elem_of_cons in Hr as [->|Hr]; [|apply list_elem_of_singleton in Hr as ->];
        discriminate.
    + eexists f1, f2, _, f4. split; [exact Hrun|]. split; [exact Hn1|].
      split; [exact Hn2|]. split; [reflexivity|].
      eexists. rewrite Hd4. vm_compute. reflexivity.
Defined.

(** The float64 changes of line 75 in the small: a fifth is not a float64, a
    price of zero gives an infinite or a missing change. *)
Example pct_in_float64 :
  pct 10 12 = 0.19999999999999996%float ∧
  pct 0 1 = infinity ∧
  PrimFloat.is_nan (pct 0 0) = true ∧
  pct_change true [10%float; nan; 12%float]
    = [nan; 0%float; 0.19999999999999996%float] ∧
  PrimFloat.is_nan (nth 1 (pct_change false [10%float; nan; 12%float]) 0%float) = true.
Proof. repeat split; by vm_compute. Qed.



(** With the market data service out of reach nothing is fetched for the
    first group, and the script goes on to the second. *)
Lemma empty_group_is_skipped_witness :
  fst (get_financial_data (H := demo_externals) (tickers_of "US Banks") "5y"
         (after (demo_world 0 false true true) (outside (demo_world 0 false true true))
            [EvPrint "📊 Fetching financial data for US Banks..."])) = Ret [] ∧
  main (H := demo_externals) demo_config (demo_world 0 false true true) =
    run_group (H := demo_externals) demo_config "US Banks in India" "5y"
      (after
         (snd (get_financial_data (H := demo_externals) (tickers_of "US Banks") "5y"
                 (after (demo_world 0 false true true)
                    (outside (demo_world 0 false true true))
                    [EvPrint "📊 Fetching financial data for US Banks..."])))
         (outside
            (snd (get_financial_data (H := demo_externals) (tickers_of "US Banks") "5y"
                    (after (demo_world 0 false true true)
                       (outside (demo_world 0 false true true))
                       [EvPrint "📊 Fetching financial data for US Banks..."]))))
         [EvPrint "📊 Fetching financial data for US Banks in India..."]).
Proof.
  assert (Hfetch : fst (get_financial_data (H := demo_externals) (tickers_of "US Banks") "5y"
         (after (demo_world 0 false true true) (outside (demo_world 0 false true true))
            [EvPrint "📊 Fetching financial data for US Banks..."])) = Ret [])
    by (vm_compute; reflexivity).
  split; [exact Hfetch|].
  apply (proj2 (empty_group_is_skipped (H := demo_externals) demo_config)).
  apply injective_projections; [exact Hfetch|reflexivity].
Defined.

Lemma missing_credentials_exit_witness :
  script (H := demo_externals) ∅ ∅ (demo_world 0 true true true) =
    (Exit 1, after (demo_world 0 true true true) (outside (demo_world 0 true true true))
       [EvPrint "❌ AWS credentials missing. Check .env or environment variables."]).
Proof.
  apply (proj1 (missing_credentials_exit (H := demo_externals) ∅ ∅
                  (demo_world 0 true true true))).
  left. reflexivity.
Defined.

(** Two worlds that differ in everything but the next identifiers. *)
Lemma report_depends_on_ids_witness :
  fst (report (H := demo_externals) demo_data "US Banks" "5y" (demo_world 3 true true true))
  = fst (report (H := demo_externals) demo_data "US Banks" "5y" (demo_world 3 false false false)).
Proof.
  apply (report_depends_on_ids (H := demo_externals)). reflexivity.
Defined.

Lemma page_title_and_heading_witness :
  ∃ combined,
    element_text "title" (full_html "US Banks" "5y" combined) = Some "US Banks Analysis (5y)" ∧
    element_text "h1" (full_html "US Banks" "5y" combined)
      = Some "US Banks Interactive Financial Dashboard (5y)".
Proof.
  destruct (page_title_and_heading (H := demo_externals) [no_revenue_figure]
              "US Banks" "5y" (demo_world 0 true true true))
    as (combined & w' & _ & _ & Htext).
  exists combined. apply Htext; reflexivity.
Defined.

(** * The further properties in the small world *)

Lemma total_revenue_first_cell_witness :
  total_revenue [("Net Income", [7%float])] = None ∧
  total_revenue ([("Net Income", [7%float])] ++ ("Total Revenue", []) :: []) = None ∧
  total_revenue
    ([("Net Income", [7%float])] ++ ("Total Revenue", [100%float; 90%float]) :: [])
  = Some (Cell 100%float).
Proof.
  destruct (total_revenue_first_cell [("Net Income", [7%float])] [] 100%float [90%float])
    as (Hnone & Hempty & Hone & _).
  - intros row Hin. apply list_elem_of_singleton in Hin as ->. discriminate.
  - split; [exact Hnone|]. split; [exact Hempty|]. apply Hone.
    intros row Hin. by apply elem_of_nil in Hin.
Defined.

(** With S3 in reach the page is uploaded and no local file appears. *)
Lemma upload_success_writes_nothing_witness :
  ∃ w',
    save_plotly_figures_as_html (H := demo_externals) demo_config [no_revenue_figure]
      "US Banks" "5y" (demo_world 0 true true true) = (Ret tt, w') ∧
    files w' = files (demo_world 0 true true true).
Proof.
  edestruct (upload_success_writes_nothing (H := demo_externals) demo_config
               [no_revenue_figure] "US Banks" "5y" (demo_world 0 true true true))
    as (w' & evs & Hrun & Hfiles & _).
  - reflexivity.
  - reflexivity.
  - exists w'. split; [exact Hrun|exact Hfiles].
Defined.

(** The two configured groups write to two different names. *)
Lemma dashboard_filename_distinct_witness :
  dashboard_filename "US Banks" "5y" ≠ dashboard_filename "US Banks in India" "5y".
Proof. apply dashboard_filename_distinct. discriminate. Defined.

(** With S3 out of reach the page is still handed to S3 once. *)
Lemma publisher_single_attempt_witness :
  ∃ doc r w' evs,
    save_plotly_figures_as_html (H := demo_externals) demo_config [no_revenue_figure]
      "US Banks" "5y" (demo_world 0 true false true) = (r, w') ∧
    trace w' = trace (demo_world 0 true false true) ++ evs ∧
    upload_attempts evs = [("US Banks_interactive_dashboard_5y.html", encode_utf8 doc)].
Proof.
  eexists.
  edestruct (publisher_single_attempt (H := demo_externals) demo_config
               [no_revenue_figure] "US Banks" "5y" (demo_world 0 true false true))
    as (r & w' & evs & Hrun & Htr & Hup & _).
  - reflexivity.
  - by exists r, w', evs.
Defined.

Lemma price_trend_lines_witness :
  ∃ f1 f2 f3 f4,
    create_interactive_plotly_dashboard (H := demo_externals) demo_data "US Banks" "5y"
      (demo_world 0 true true true) =
      (Ret [f1; f2; f3; f4],
       after (demo_world 0 true true true) (outside (demo_world 0 true true true))
             [EvBuild "US Banks"]) ∧
    omap trace_name (fig_data f1) = keys demo_data.
Proof.
  destruct (price_trend_lines (H := demo_externals) demo_data "US Banks" "5y"
              (demo_world 0 true true true))
    as (f1 & f2 & f3 & f4 & Hrun & Hnames & _).
  - discriminate.
  - apply (bool_decide_unpack _). by vm_compute.
  - intros _. apply (bool_decide_unpack _). by vm_compute.
  - intros k xs Hin. apply list_elem_of_singleton in Hin. discriminate Hin.
  - by exists f1, f2, f3, f4.
Defined.

Lemma distribution_boxes_witness :
  ∃ f1 f2 f3 f4,
    create_interactive_plotly_dashboard (H := demo_externals) demo_data "US Banks" "5y"
      (demo_world 0 true true true) =
      (Ret [f1; f2; f3; f4],
       after (demo_world 0 true true true) (outside (demo_world 0 true true true))
             [EvBuild "US Banks"]) ∧
    omap trace_name (fig_data f2) = keys demo_data.
Proof.
  destruct (distribution_boxes (H := demo_externals) demo_data "US Banks" "5y"
              (demo_world 0 true true true))
    as (f1 & f2 & f3 & f4 & Hrun & _ & Hnames).
  - discriminate.
  - apply (bool_decide_unpack _). by vm_compute.
  - intros _. apply (bool_decide_unpack _). by vm_compute.
  - intros k xs Hin. apply list_elem_of_singleton in Hin. discriminate Hin.
  - apply (bool_decide_unpack _). by vm_compute.
  - intros r Hr. unfold demo_data, values in Hr. cbn [map snd] in Hr.
    apply elem_of_cons in Hr as [->|Hr]; [|apply list_elem_of_singleton in Hr as ->];
      discriminate.
  - by exists f1, f2, f3, f4.
Defined.
